(** * vertex_search: session manager and SOW classifier

    A shallow embedding of [src/vertex_search/session.py] (class
    [SessionManager]) and of the two data-only methods of
    [src/vertex_search/client.py] ([list_sessions] and
    [extract_sows_from_results]), followed by the properties of these
    functions.

    Conventions of the embedding.
    - A Python [str] is the list of its Unicode code points.
    - A Python [dict] is an insertion-ordered association list with unique
      keys ([PyDict]): assignment to an existing key keeps its position,
      assignment to a fresh key appends, [del] removes.
    - [datetime.now()] and [uuid.uuid4().hex] are inputs of the operations
      that call them.  A [datetime] is the number of microseconds since the
      epoch, the resolution of Python's [datetime]; its [timestamp()] is a
      binary64 float, computed and compared as IEEE 754 prescribes.
    - The methods of [SessionManager] live in a state-and-exception monad
      over the two dictionaries of the object. *)

From Stdlib Require Import String Ascii.
From Stdlib Require Import List ZArith NArith Lia Bool Permutation Sorted.
From Stdlib Require Import SpecFloat.
Import ListNotations.

Set Implicit Arguments.

(* ===================================================================== *)
(** ** Python strings *)
(* ===================================================================== *)

Definition codepoint := N.
Bind Scope N_scope with codepoint.
Definition str := list codepoint.

(** An ASCII literal of the source as a [str]. *)
Definition py (s : string) : str := map N_of_ascii (list_ascii_of_string s).

Fixpoint str_eqb (a b : str) : bool :=
  match a, b with
  | [], [] => true
  | x :: a', y :: b' => N.eqb x y && str_eqb a' b'
  | _, _ => false
  end.

(** [a <= b] on [str]: lexicographic on code points, as Python compares. *)
Fixpoint str_leb (a b : str) : bool :=
  match a, b with
  | [], _ => true
  | _ :: _, [] => false
  | x :: a', y :: b' =>
      if N.ltb x y then true
      else if N.eqb x y then str_leb a' b'
      else false
  end.

Definition dash : codepoint := 45%N.

(** [s.endswith('-')] *)
Fixpoint endswith_dash (s : str) : bool :=
  match s with
  | [] => false
  | [c] => N.eqb c dash
  | _ :: s' => endswith_dash s'
  end.

(** [s.rstrip('-')]: drops every trailing ['-']. *)
Fixpoint rstrip_dash (s : str) : str :=
  match s with
  | [] => []
  | c :: s' =>
      match rstrip_dash s' with
      | [] => if N.eqb c dash then [] else [c]
      | r => c :: r
      end
  end.

(** [p] is a prefix of [s], decided. *)
Fixpoint prefixb (p s : str) : bool :=
  match p, s with
  | [], _ => true
  | _ :: _, [] => false
  | x :: p', y :: s' => N.eqb x y && prefixb p' s'
  end.

(* ===================================================================== *)
(** ** Python dictionaries with [str] keys *)
(* ===================================================================== *)

Module PyDict.
Section Dict.
Variable V : Type.

Definition t := list (str * V).

Definition empty : t := [].

(** [d.get(k)] *)
Fixpoint get (d : t) (k : str) : option V :=
  match d with
  | [] => None
  | (k', v) :: d' => if str_eqb k' k then Some v else get d' k
  end.

(** [k in d] *)
Definition contains (d : t) (k : str) : bool :=
  match get d k with Some _ => true | None => false end.

(** [d[k] = v] *)
Fixpoint set (d : t) (k : str) (v : V) : t :=
  match d with
  | [] => [(k, v)]
  | (k', v') :: d' =>
      if str_eqb k' k then (k', v) :: d' else (k', v') :: set d' k v
  end.

(** [del d[k]] for a key that is present; nothing to remove otherwise. *)
Fixpoint del (d : t) (k : str) : t :=
  match d with
  | [] => []
  | (k', v') :: d' =>
      if str_eqb k' k then d' else (k', v') :: del d' k
  end.

(** In-place mutation of the object stored under [k]. *)
Fixpoint adjust (f : V -> V) (d : t) (k : str) : t :=
  match d with
  | [] => []
  | (k', v') :: d' =>
      if str_eqb k' k then (k', f v') :: d' else (k', v') :: adjust f d' k
  end.

Definition keys (d : t) : list str := map fst d.
Definition values (d : t) : list V := map snd d.
Definition items (d : t) : list (str * V) := d.

(** [sorted(d.items())]: keys are unique, so tuples are ordered by key.
    Insertion sort, stable as Python's sort is. *)
Fixpoint insert_sorted (kv : str * V) (l : list (str * V)) : list (str * V) :=
  match l with
  | [] => [kv]
  | kv' :: l' =>
      if str_leb (fst kv) (fst kv') then kv :: l
      else kv' :: insert_sorted kv l'
  end.

Definition sorted (l : list (str * V)) : list (str * V) :=
  fold_right insert_sorted [] l.

(** [dict(pairs)] *)
Definition of_items (l : list (str * V)) : t :=
  fold_left (fun d kv => set d (fst kv) (snd kv)) l empty.
End Dict.
End PyDict.

(* ===================================================================== *)
(** ** The pattern [(CHR_)?SOW[_\s#]*([0-9X]+)], [re.IGNORECASE] *)
(* ===================================================================== *)

(** A literal that is not a letter matches itself. *)
Definition lit (l : codepoint) (c : codepoint) : bool := N.eqb c l.

(** A lower-case ASCII letter [lo] of the pattern under [re.IGNORECASE]:
    the letter, its upper case, and for [s] the long s (U+017F), which
    Python's engine treats as a case variant of [s]. *)
Definition lit_ci (lo : codepoint) (c : codepoint) : bool :=
  N.eqb c lo || N.eqb c (lo - 32) || (N.eqb lo 115 && N.eqb c 383).

(** [\s] on [str] patterns: Unicode white space. *)
Definition is_space (c : codepoint) : bool :=
  (N.leb 9 c && N.leb c 13) || (N.leb 28 c && N.leb c 32)
  || N.eqb c 133 || N.eqb c 160 || N.eqb c 5760
  || (N.leb 8192 c && N.leb c 8202)
  || N.eqb c 8232 || N.eqb c 8233 || N.eqb c 8239 || N.eqb c 8287
  || N.eqb c 12288.

(** [[_\s#]] *)
Definition in_sep (c : codepoint) : bool :=
  N.eqb c 95 || is_space c || N.eqb c 35.

(** [[0-9X]] under [re.IGNORECASE] *)
Definition in_id (c : codepoint) : bool :=
  (N.leb 48 c && N.leb c 57) || N.eqb c 88 || N.eqb c 120.

Definition CHR_ : list (codepoint -> bool) :=
  [lit_ci 99; lit_ci 104; lit_ci 114; lit 95].

Definition SOW : list (codepoint -> bool) :=
  [lit_ci 115; lit_ci 111; lit_ci 119].

(** Backtracking matcher in continuation-passing style: each combinator
    takes the rest of the pattern as [k] and tries its alternatives in the
    engine's order (greedy first). *)
Section Backtracking.
Variable R : Type.

Definition re_char (p : codepoint -> bool) (k : str -> option R)
  (s : str) : option R :=
  match s with
  | c :: s' => if p c then k s' else None
  | [] => None
  end.

Fixpoint re_seq (ps : list (codepoint -> bool)) (k : str -> option R)
  (s : str) : option R :=
  match ps with
  | [] => k s
  | p :: ps' => re_char p (re_seq ps' k) s
  end.

(** [r?] *)
Definition re_opt (r : (str -> option R) -> str -> option R)
  (k : str -> option R) (s : str) : option R :=
  match r k s with
  | Some x => Some x
  | None => k s
  end.

(** [[p]*] *)
Fixpoint re_star (p : codepoint -> bool) (k : str -> option R)
  (s : str) : option R :=
  match s with
  | c :: s' =>
      if p c then
        match re_star p k s' with
        | Some x => Some x
        | None => k s
        end
      else k s
  | [] => k s
  end.

(** [[p]*] inside a capturing group, the text consumed so far in [acc]. *)
Fixpoint re_star_cap (p : codepoint -> bool) (k : str -> str -> option R)
  (acc : str) (s : str) : option R :=
  match s with
  | c :: s' =>
      if p c then
        match re_star_cap p k (acc ++ [c]) s' with
        | Some x => Some x
        | None => k acc s
        end
      else k acc s
  | [] => k acc s
  end.

(** [[p]+] as a capturing group *)
Definition re_plus_cap (p : codepoint -> bool) (k : str -> str -> option R)
  (s : str) : option R :=
  match s with
  | c :: s' => if p c then re_star_cap p k [c] s' else None
  | [] => None
  end.
End Backtracking.

(** A match of the whole pattern starting at the head of [s]; the result is
    [match.group(2)]. *)
Definition sow_pattern_match (s : str) : option str :=
  re_opt (re_seq CHR_)
    (re_seq SOW (re_star in_sep (re_plus_cap in_id (fun g _ => Some g)))) s.

(** [sow_pattern.search(title)]: the leftmost start position that matches. *)
Fixpoint sow_pattern_search (s : str) : option str :=
  match sow_pattern_match s with
  | Some g => Some g
  | None =>
      match s with
      | [] => None
      | _ :: s' => sow_pattern_search s'
      end
  end.

(* ===================================================================== *)
(** ** The result classifier: [VertexSearchClient.extract_sows_from_results] *)
(* ===================================================================== *)

(** A Python [float], by its IEEE-754 binary64 bit pattern; scores are only
    copied. *)
Definition float64 := N.

Module Classifier.

(** Modelled from the spec: [SearchResult] of [vertex_search/models.py],
    which is not among the sources.  The spec gives a result the fields
    title, content, link (or absent), score (or absent) and metadata; the
    constructor calls of [client.py] name them [title], [content], [uri],
    [score] and [metadata], with [title] and [content] always a [str].
    The classifier never reads [metadata]. *)
Record SearchResult := {
  title : str;
  content : str;
  uri : option str;
  score : option float64
}.

(** The dictionary with keys ['title'], ['link'], ['content'], ['score']. *)
Record Document := {
  doc_title : str;
  doc_link : option str;
  doc_content : str;
  doc_score : option float64
}.

(** The dictionary with keys ['sow_number'], ['documents'],
    ['primary_title']. *)
Record SowInfo := {
  sow_number : str;
  documents : list Document;
  primary_title : str
}.

(** The returned dictionary. *)
Record SowAnalysis := {
  total_sows : nat;
  sows : PyDict.t SowInfo;
  other_documents : list Document;
  total_documents : nat
}.

Definition ellipsis : str := py "...".

(** [content[:200] + '...' if len(content) > 200 else content] *)
Definition content_preview (content : str) : str :=
  if Nat.ltb 200 (length content)
  then firstn 200 content ++ ellipsis
  else content.

Definition condensed (result : SearchResult) : Document :=
  {| doc_title := title result;
     doc_link := uri result;
     doc_content := content_preview (content result);
     doc_score := score result |}.

(** [info['documents'].append(doc)] *)
Definition append_document (doc : Document) (info : SowInfo) : SowInfo :=
  {| sow_number := sow_number info;
     documents := documents info ++ [doc];
     primary_title := primary_title info |}.

(** The body of the [for result in results] loop on the pair
    [(sows, other_docs)]. *)
Definition classify_result (acc : PyDict.t SowInfo * list Document)
  (result : SearchResult) : PyDict.t SowInfo * list Document :=
  let (sows, other_docs) := acc in
  match sow_pattern_search (title result) with
  | Some sow_num =>
      let sow_key := py "SOW#" ++ sow_num in
      let sows' :=
        if PyDict.contains sows sow_key then sows
        else PyDict.set sows sow_key
               {| sow_number := sow_num;
                  documents := [];
                  primary_title := title result |} in
      (PyDict.adjust (append_document (condensed result)) sows' sow_key,
       other_docs)
  | None => (sows, other_docs ++ [condensed result])
  end.

Definition extract_sows_from_results (results : list SearchResult)
  : SowAnalysis :=
  let (sows, other_docs) :=
    fold_left classify_result results (PyDict.empty SowInfo, []) in
  {| total_sows := length sows;
     sows := PyDict.of_items (PyDict.sorted (PyDict.items sows));
     other_documents := other_docs;
     total_documents := length results |}.

(** [sum(len(g['documents']) for g in sows.values())] *)
Definition grouped_count (d : PyDict.t SowInfo) : nat :=
  fold_right (fun g n => length (documents g) + n) 0 (PyDict.values d).

(** Every document of every group, group after group. *)
Definition grouped_documents (d : PyDict.t SowInfo) : list Document :=
  flat_map documents (PyDict.values d).

End Classifier.

(* ===================================================================== *)
(** ** The session manager: [vertex_search/session.py] *)
(* ===================================================================== *)

(** Microseconds since the epoch. *)
Definition datetime := Z.
Bind Scope Z_scope with datetime.

(** Python floats: IEEE 754 binary64, rounding to nearest, ties to even,
    as the specification of the standard library has them. *)
Module PyFloat.

Definition prec : Z := 53.
Definition emax : Z := 1024.

Definition float := spec_float.

(** The conversion of an [int], correctly rounded; the result is an
    infinity when the integer is too large for a float. *)
Definition of_int (n : Z) : float := binary_normalize prec emax n 0 false.

Definition is_inf (x : float) : bool :=
  match x with S754_infinity _ => true | _ => false end.

Definition add (x y : float) : float := SFadd prec emax x y.
Definition sub (x y : float) : float := SFsub prec emax x y.
Definition div (x y : float) : float := SFdiv prec emax x y.

(** [x < y] *)
Definition ltb (x y : float) : bool := SFltb x y.

(** [d.timestamp()] of a naive [datetime]: the whole seconds as a float
    plus [d.microsecond / 1e6]. *)
Definition timestamp (d : datetime) : float :=
  add (of_int (d / 1000000)) (div (of_int (d mod 1000000)) (of_int 1000000)).

End PyFloat.

Module Session.

(** The two values the code assigns to [SessionInfo.state]. *)
Inductive session_state := IN_PROGRESS | COMPLETED.

Definition session_state_eqb (a b : session_state) : bool :=
  match a, b with
  | IN_PROGRESS, IN_PROGRESS | COMPLETED, COMPLETED => true
  | _, _ => false
  end.

(** One entry of a history list: the dictionary with the keys ['query']
    (['queryId'], ['text']), ['answer'] and ['timestamp']. *)
Record Turn := {
  query_id : str;
  query_text : str;
  answer : str;
  timestamp : datetime
}.

(** What [SessionInfo.turns] refers to: the value the constructor gave it,
    or, after [update_session], the very list object stored in
    [_session_history] under the given key. *)
Inductive turns_ref :=
| TurnsInitial
| TurnsOfHistory (key : str).

(** Modelled from the spec: [SessionInfo] of [vertex_search/models.py],
    which is not among the sources.  The fields are those the spec lists
    and [session.py] and [client.py] read and write; [start_time] and
    [end_time] are optional, [end_time] unset by the constructor, and the
    turn history of a new session is empty. *)
Record SessionInfo := {
  session_id : str;
  user_pseudo_id : option str;
  start_time : option datetime;
  end_time : option datetime;
  state : session_state;
  turns : turns_ref
}.

(** The attributes [_active_sessions] and [_session_history]. *)
Record SessionManager := {
  active_sessions : PyDict.t SessionInfo;
  session_history : PyDict.t (list Turn)
}.

(** [SessionManager.__init__] *)
Definition init : SessionManager :=
  {| active_sessions := PyDict.empty SessionInfo;
     session_history := PyDict.empty (list Turn) |}.

(** *** State and exceptions *)

Inductive exn :=
| KeyError (k : str)
| OverflowError.

(** What a call does: it returns a value or raises, and leaves the manager
    in a state in either case. *)
Inductive outcome (A : Type) :=
| Return (a : A) (self : SessionManager)
| Raise (e : exn) (self : SessionManager).
Arguments Raise {A} e self.

Definition M (A : Type) := SessionManager -> outcome A.

Definition ret {A} (a : A) : M A := fun self => Return a self.

Definition bind {A B} (c : M A) (k : A -> M B) : M B :=
  fun self =>
    match c self with
    | Return a self' => k a self'
    | Raise e self' => Raise e self'
    end.

Definition get_self : M SessionManager := fun self => Return self self.
Definition put_self (self' : SessionManager) : M unit :=
  fun _ => Return tt self'.
Definition raise {A} (e : exn) : M A := fun self => Raise e self.

Notation "x <- c ;; k" := (bind c (fun x => k))
  (at level 61, c at next level, right associativity).
Notation "c ;; k" := (bind c (fun _ => k))
  (at level 61, right associativity).

(** [for x in l: body x] *)
Fixpoint for_each {A} (l : list A) (body : A -> M unit) : M unit :=
  match l with
  | [] => ret tt
  | x :: l' => body x ;; for_each l' body
  end.

(** *** The methods *)

Definition create_session (uuid_hex : str) (now : datetime)
  (user : option str) : M str :=
  self <- get_self ;;
  let sid := uuid_hex ++ [dash] in
  let session_info :=
    {| session_id := sid;
       user_pseudo_id := user;
       start_time := Some now;
       end_time := None;
       state := IN_PROGRESS;
       turns := TurnsInitial |} in
  put_self
    {| active_sessions := PyDict.set (active_sessions self) sid session_info;
       session_history := PyDict.set (session_history self) sid [] |} ;;
  ret sid.

Definition get_session (sid : str) : M (option SessionInfo) :=
  self <- get_self ;;
  ret (PyDict.get (active_sessions self) sid).

Definition set_turns (r : turns_ref) (s : SessionInfo) : SessionInfo :=
  {| session_id := session_id s;
     user_pseudo_id := user_pseudo_id s;
     start_time := start_time s;
     end_time := end_time s;
     state := state s;
     turns := r |}.

Definition update_session (sid query qid answer_id : str) (now : datetime)
  : M unit :=
  self <- get_self ;;
  if PyDict.contains (active_sessions self) sid then
    let turn :=
      {| query_id := qid; query_text := query;
         answer := answer_id; timestamp := now |} in
    match PyDict.get (session_history self) sid with
    | None => raise (KeyError sid)
    | Some h =>
        put_self
          {| active_sessions :=
               PyDict.adjust (set_turns (TurnsOfHistory sid))
                 (active_sessions self) sid;
             session_history :=
               PyDict.set (session_history self) sid (h ++ [turn]) |}
    end
  else ret tt.

Definition set_ended (now : datetime) (s : SessionInfo) : SessionInfo :=
  {| session_id := session_id s;
     user_pseudo_id := user_pseudo_id s;
     start_time := start_time s;
     end_time := Some now;
     state := COMPLETED;
     turns := turns s |}.

Definition end_session (sid : str) (now : datetime) : M unit :=
  self <- get_self ;;
  if PyDict.contains (active_sessions self) sid then
    put_self
      {| active_sessions :=
           PyDict.adjust (set_ended now) (active_sessions self) sid;
         session_history := session_history self |}
  else ret tt.

Definition get_session_history (sid : str) : M (list Turn) :=
  self <- get_self ;;
  ret (match PyDict.get (session_history self) sid with
       | Some h => h
       | None => []
       end).

Definition list_active_sessions : M (list SessionInfo) :=
  self <- get_self ;;
  ret (filter (fun session => session_state_eqb (state session) IN_PROGRESS)
         (PyDict.values (active_sessions self))).

(** [session.user_pseudo_id == user_pseudo_id] for a [str] argument. *)
Definition user_is (user : str) (session : SessionInfo) : bool :=
  match user_pseudo_id session with
  | Some u => str_eqb u user
  | None => false
  end.

Definition list_sessions_for_user (user : str) : M (list SessionInfo) :=
  self <- get_self ;;
  ret (filter (user_is user) (PyDict.values (active_sessions self))).

Definition is_new_session (sid : str) : M bool :=
  ret (endswith_dash sid).

Definition get_clean_session_id (sid : str) : M str :=
  ret (rstrip_dash sid).

(** [session.start_time and session.start_time.timestamp() < cutoff_time];
    a [datetime] is never falsy. *)
Definition is_old (cutoff_time : PyFloat.float) (session : SessionInfo)
  : bool :=
  match start_time session with
  | Some t => PyFloat.ltb (PyFloat.timestamp t) cutoff_time
  | None => false
  end.

(** [del self._active_sessions[k]] *)
Definition del_active (k : str) : M unit :=
  self <- get_self ;;
  if PyDict.contains (active_sessions self) k then
    put_self {| active_sessions := PyDict.del (active_sessions self) k;
                session_history := session_history self |}
  else raise (KeyError k).

(** [if k in self._session_history: del self._session_history[k]] *)
Definition del_history_if_present (k : str) : M unit :=
  self <- get_self ;;
  if PyDict.contains (session_history self) k then
    put_self {| active_sessions := active_sessions self;
                session_history := PyDict.del (session_history self) k |}
  else ret tt.

(** [now.timestamp() - (max_age_hours * 3600)]: the product is an [int],
    which the subtraction converts to a float; an [int] too large for a
    float raises [OverflowError]. *)
Definition cutoff_time_of (max_age_hours : Z) (now : datetime)
  : M PyFloat.float :=
  let age := PyFloat.of_int (max_age_hours * 3600) in
  if PyFloat.is_inf age then raise OverflowError
  else ret (PyFloat.sub (PyFloat.timestamp now) age).

Definition cleanup_old_sessions (max_age_hours : Z) (now : datetime)
  : M nat :=
  cutoff_time <- cutoff_time_of max_age_hours now ;;
  self <- get_self ;;
  let sessions_to_remove :=
    map fst (filter (fun kv => is_old cutoff_time (snd kv))
               (PyDict.items (active_sessions self))) in
  for_each sessions_to_remove
    (fun k => del_active k ;; del_history_if_present k) ;;
  ret (length sessions_to_remove).

(** *** Sequences of calls *)

Inductive call :=
| Create (uuid_hex : str) (now : datetime) (user : option str)
| RecordTurn (sid query qid answer_id : str) (now : datetime)
| End (sid : str) (now : datetime)
| Sweep (max_age_hours : Z) (now : datetime).

Definition perform (c : call) : M unit :=
  match c with
  | Create u now user => create_session u now user ;; ret tt
  | RecordTurn sid q qid a now => update_session sid q qid a now
  | End sid now => end_session sid now
  | Sweep age now => cleanup_old_sessions age now ;; ret tt
  end.

(** The manager as a call leaves it, and the exception it raised. *)
Definition store_after {A} (o : outcome A) : SessionManager :=
  match o with Return _ self => self | Raise _ self => self end.

Definition raised {A} (o : outcome A) : list exn :=
  match o with Return _ _ => [] | Raise e _ => [e] end.

(** The calls one after the other, the caller going on after a call that
    raises: the exceptions raised on the way and the manager at the end. *)
Fixpoint run (calls : list call) (self : SessionManager)
  : list exn * SessionManager :=
  match calls with
  | [] => ([], self)
  | c :: calls' =>
      let o := perform c self in
      let (es, self') := run calls' (store_after o) in
      (raised o ++ es, self')
  end.

(** The store after [calls] on a new manager. *)
Definition state_after (calls : list call) : SessionManager :=
  snd (run calls init).

(** The invariant of the store: valid dictionaries (no key twice) with the
    same keys in the same order. *)
Fixpoint mem_str (k : str) (l : list str) : bool :=
  match l with
  | [] => false
  | k' :: l' => str_eqb k' k || mem_str k l'
  end.

Fixpoint nodup_str (l : list str) : bool :=
  match l with
  | [] => true
  | k :: l' => negb (mem_str k l') && nodup_str l'
  end.

Fixpoint keys_eqb (a b : list str) : bool :=
  match a, b with
  | [], [] => true
  | x :: a', y :: b' => str_eqb x y && keys_eqb a' b'
  | _, _ => false
  end.

Definition store_ok (self : SessionManager) : bool :=
  nodup_str (PyDict.keys (active_sessions self))
  && keys_eqb (PyDict.keys (active_sessions self))
              (PyDict.keys (session_history self)).

End Session.

(* ===================================================================== *)
(** ** [VertexSearchClient.list_sessions] *)
(* ===================================================================== *)

Module Client.
Import Session.

(** The dictionary built for each session; [isoformat()] of a time is the
    time. *)
Record SessionSummary := {
  sum_session_id : str;
  sum_user_pseudo_id : option str;
  sum_state : session_state;
  sum_start_time : option datetime;
  sum_end_time : option datetime;
  sum_turns : nat
}.

(** [len(session.turns)] *)
Definition turns_len (self : SessionManager) (session : SessionInfo) : nat :=
  match turns session with
  | TurnsInitial => 0
  | TurnsOfHistory k =>
      match PyDict.get (session_history self) k with
      | Some h => length h
      | None => 0
      end
  end.

Definition summary (self : SessionManager) (session : SessionInfo)
  : SessionSummary :=
  {| sum_session_id := session_id session;
     sum_user_pseudo_id := user_pseudo_id session;
     sum_state := state session;
     sum_start_time := start_time session;
     sum_end_time := end_time session;
     sum_turns := turns_len self session |}.

(** [if user_pseudo_id:] holds for a non-empty string only. *)
Definition list_sessions (user : option str) : M (list SessionSummary) :=
  sessions <- match user with
              | Some (c :: u) => list_sessions_for_user (c :: u)
              | _ => list_active_sessions
              end ;;
  self <- get_self ;;
  ret (map (summary self) sessions).

End Client.

(* ===================================================================== *)
(** ** Notions used by the statements *)
(* ===================================================================== *)

(** The entries of [d] whose key is not in [l]. *)
Definition without_keys {V : Type} (l : list str) (d : PyDict.t V)
  : PyDict.t V :=
  filter (fun kv => negb (Session.mem_str (fst kv) l)) d.

(** The entries of the session dictionary that a sweep with the given
    cutoff keeps. *)
Definition kept (cutoff_time : PyFloat.float)
  (d : PyDict.t Session.SessionInfo)
  : PyDict.t Session.SessionInfo :=
  filter (fun kv => negb (Session.is_old cutoff_time (snd kv))) d.

(** The keys a sweep with the given cutoff removes. *)
Definition swept (cutoff_time : PyFloat.float)
  (d : PyDict.t Session.SessionInfo)
  : list str :=
  map fst (filter (fun kv => Session.is_old cutoff_time (snd kv)) d).

(** What a call returned, if it returned. *)
Definition value_of {A : Type} (o : Session.outcome A) : option A :=
  match o with
  | Session.Return a _ => Some a
  | Session.Raise _ _ => None
  end.







(** The key of the group of an identifier. *)
Definition sow_key (g : str) : str := py "SOW#" ++ g.


(** Where the loop has put a result: in the group of its identifier, or
    among the other documents when its title has none. *)
Definition placed (sows : PyDict.t Classifier.SowInfo)
  (other_docs : list Classifier.Document) (r : Classifier.SearchResult)
  : Prop :=
  match sow_pattern_search (Classifier.title r) with
  | Some g =>
      exists info,
        PyDict.get sows (sow_key g) = Some info /\
        In (Classifier.condensed r) (Classifier.documents info)
  | None => In (Classifier.condensed r) other_docs
  end.

(* ===================================================================== *)
(** ** The callers in [client.py]: [get_session_info], the answer calls,
       [conversational_search] and [search_and_analyze_sows] *)
(* ===================================================================== *)

Module Conversation.
Import Session.

(** [bool(s)] of a [str] *)
Definition truthy (s : str) : bool :=
  match s with [] => false | _ => true end.

(** [session.turns] as a list: the history list it is an alias of. *)
Definition turns_list (self : SessionManager) (session : SessionInfo)
  : list Turn :=
  match turns session with
  | TurnsInitial => []
  | TurnsOfHistory k =>
      match PyDict.get (session_history self) k with
      | Some h => h
      | None => []
      end
  end.

(** The dictionary of [get_session_info]; [isoformat()] of a time is the
    time. *)
Record SessionInfoDict := {
  info_session_id : str;
  info_user_pseudo_id : option str;
  info_state : session_state;
  info_start_time : option datetime;
  info_end_time : option datetime;
  info_turns : list Turn
}.

Definition get_session_info (sid : str) : M (option SessionInfoDict) :=
  session_info <- get_session sid ;;
  self <- get_self ;;
  ret (match session_info with
       | Some s =>
           Some {| info_session_id := session_id s;
                   info_user_pseudo_id := user_pseudo_id s;
                   info_state := state s;
                   info_start_time := start_time s;
                   info_end_time := end_time s;
                   info_turns := turns_list self s |}
       | None => None
       end).

(** An exception of the client: what a remote call raised, an exception of
    the session manager, or [Exception(f"{prefix}{cause}")]. *)
Inductive pyexn :=
| Remote (msg : str)
| OfKeyError (k : str)
| OfOverflowError
| Exception (prefix : str) (cause : pyexn).

Definition of_exn (e : exn) : pyexn :=
  match e with
  | KeyError k => OfKeyError k
  | OverflowError => OfOverflowError
  end.

(** A call of the client: its value or its exception, and the session
    manager as the call leaves it in either case. *)
Inductive result (A : Type) :=
| Ok (a : A) (self : SessionManager)
| Err (e : pyexn) (self : SessionManager).
Arguments Ok {A} a self.
Arguments Err {A} e self.

Definition store_of {A : Type} (r : result A) : SessionManager :=
  match r with Ok _ self => self | Err _ self => self end.

(** Modelled from the spec: [AnswerResponse] of [vertex_search/models.py],
    which is not among the sources; the fields are those of the
    constructor calls in [client.py]. *)
Record AnswerResponse := {
  resp_answer : str;
  resp_related_questions : list str;
  resp_search_results : list Classifier.SearchResult;
  resp_session_id : option str;
  resp_query_id : option str
}.

(** What [get_answer] reads from the reply of the service. *)
Record AnswerParts := {
  answer_text : str;
  related_questions : list str;
  search_results : list Classifier.SearchResult
}.

(** How the answer call fails. *)
Inductive remote_failure :=
| GoogleAPIError (msg : str)
| OtherFailure (msg : str).

(** [search], the remote call and the parsing of its reply taken as given:
    the results parsed, or the message of what was raised on the way. *)
Definition search (reply : list Classifier.SearchResult + str)
  : list Classifier.SearchResult + pyexn :=
  match reply with
  | inl results => inl results
  | inr msg => inr (Exception (py "Search failed: ") (Remote msg))
  end.

(** [get_answer], the remote call taken as given. *)
Definition get_answer (reply : AnswerParts + remote_failure)
  (query_id session_id : option str) : AnswerResponse + pyexn :=
  match reply with
  | inl parts =>
      inl {| resp_answer := answer_text parts;
             resp_related_questions := related_questions parts;
             resp_search_results := search_results parts;
             resp_session_id := session_id;
             resp_query_id := query_id |}
  | inr (GoogleAPIError msg) =>
      inr (Exception (py "Google API error: ") (Remote msg))
  | inr (OtherFailure msg) =>
      inr (Exception (py "Answer generation failed: ") (Remote msg))
  end.

Definition search_with_answer
  (search_reply : list Classifier.SearchResult + str)
  (answer_reply : AnswerParts + remote_failure)
  (session_id : option str) : AnswerResponse + pyexn :=
  match search search_reply with
  | inr e => inr (Exception (py "Search with answer failed: ") e)
  | inl results =>
      let query_id : option str := None in
      match get_answer answer_reply query_id session_id with
      | inr e => inr (Exception (py "Search with answer failed: ") e)
      | inl answer_response =>
          inl {| resp_answer := resp_answer answer_response;
                 resp_related_questions :=
                   resp_related_questions answer_response;
                 resp_search_results := results;
                 resp_session_id := resp_session_id answer_response;
                 resp_query_id := resp_query_id answer_response |}
      end
  end.

(** The session handling at the head of [conversational_search]. *)
Definition choose_session (uuid_hex : str) (now : datetime)
  (session_id user : option str) (start_new_session : bool) : M str :=
  match start_new_session, session_id with
  | true, _ | false, None => create_session uuid_hex now user
  | false, Some sid =>
      if truthy sid then
        new <- is_new_session sid ;;
        if new then get_clean_session_id sid else ret sid
      else ret sid
  end.

(** [conversational_search]; [now] is the clock at [create_session],
    [now'] the clock at [update_session]. *)
Definition conversational_search (uuid_hex : str) (now now' : datetime)
  (search_reply : list Classifier.SearchResult + str)
  (answer_reply : AnswerParts + remote_failure)
  (query : str) (session_id user : option str) (start_new_session : bool)
  (self : SessionManager) : result AnswerResponse :=
  let failed := Exception (py "Conversational search failed: ") in
  match choose_session uuid_hex now session_id user start_new_session self
  with
  | Raise e self0 => Err (failed (of_exn e)) self0
  | Return sid self1 =>
      match search_with_answer search_reply answer_reply (Some sid) with
      | inr e => Err (failed e) self1
      | inl answer_response =>
          let record : M unit :=
            match resp_query_id answer_response with
            | Some qid =>
                if truthy sid && truthy qid
                then update_session sid query qid (py "answer_" ++ qid) now'
                else ret tt
            | None => ret tt
            end in
          match record self1 with
          | Raise e self0 => Err (failed (of_exn e)) self0
          | Return _ self2 =>
              Ok {| resp_answer := resp_answer answer_response;
                    resp_related_questions :=
                      resp_related_questions answer_response;
                    resp_search_results :=
                      resp_search_results answer_response;
                    resp_session_id := Some sid;
                    resp_query_id := resp_query_id answer_response |}
                 self2
          end
      end
  end.

(** The dictionary of [search_and_analyze_sows]. *)
Record SowSearch := {
  sow_query : str;
  sow_analysis : Classifier.SowAnalysis;
  sow_raw_results : list Classifier.SearchResult
}.

Definition search_and_analyze_sows
  (search_reply : list Classifier.SearchResult + str) (query : str)
  : SowSearch + pyexn :=
  match search search_reply with
  | inl results =>
      inl {| sow_query := query;
             sow_analysis := Classifier.extract_sows_from_results results;
             sow_raw_results := results |}
  | inr e => inr (Exception (py "SOW analysis failed: ") e)
  end.

End Conversation.

(* ===================================================================== *)
(** ** More notions used by the statements *)
(* ===================================================================== *)

(** What every stored session satisfies: it is stored under its own
    identifier, which ends with the dash; it has a start time; and it has
    an end time exactly when it is [COMPLETED]. *)
Definition session_ok (kv : str * Session.SessionInfo) : bool :=
  str_eqb (Session.session_id (snd kv)) (fst kv)
  && endswith_dash (fst kv)
  && match Session.start_time (snd kv) with Some _ => true | None => false end
  && match Session.state (snd kv), Session.end_time (snd kv) with
     | Session.IN_PROGRESS, None => true
     | Session.COMPLETED, Some _ => true
     | _, _ => false
     end.

(** [session.turns] is the history list of the session, or still the
    initial value while that history is empty. *)
Definition turns_ok (self : Session.SessionManager)
  (kv : str * Session.SessionInfo) : bool :=
  match Session.turns (snd kv) with
  | Session.TurnsOfHistory k => str_eqb k (fst kv)
  | Session.TurnsInitial =>
      match PyDict.get (Session.session_history self) (fst kv) with
      | Some [] => true
      | _ => false
      end
  end.

Definition sessions_ok (self : Session.SessionManager) : bool :=
  Session.store_ok self
  && forallb session_ok (Session.active_sessions self)
  && forallb (turns_ok self) (Session.active_sessions self).

(** The result belongs to the group of key [k]. *)
Definition in_group (k : str) (r : Classifier.SearchResult) : bool :=
  match sow_pattern_search (Classifier.title r) with
  | Some g => str_eqb (sow_key g) k
  | None => false
  end.

(** The title of the result has no match. *)
Definition unmatched (r : Classifier.SearchResult) : bool :=
  match sow_pattern_search (Classifier.title r) with
  | Some _ => false
  | None => true
  end.

(** The group of key [k] as the results determine it. *)
Definition group_of (k : str) (results : list Classifier.SearchResult)
  : option Classifier.SowInfo :=
  match filter (in_group k) results with
  | [] => None
  | r :: l =>
      match sow_pattern_search (Classifier.title r) with
      | Some g =>
          Some {| Classifier.sow_number := g;
                  Classifier.documents :=
                    map Classifier.condensed (r :: l);
                  Classifier.primary_title := Classifier.title r |}
      | None => None
      end
  end.

(** The turn that [update_session] records. *)
Definition turn_of (a : str * str * str * datetime) : Session.Turn :=
  let '(q, qid, ans, now) := a in
  {| Session.query_id := qid; Session.query_text := q;
     Session.answer := ans; Session.timestamp := now |}.

(** [update_session] on the same identifier, once for each entry. *)
Definition update_all (sid : str) (l : list (str * str * str * datetime))
  : Session.M unit :=
  Session.for_each l
    (fun a => let '(q, qid, ans, now) := a in
              Session.update_session sid q qid ans now).

(* ===================================================================== *)
(** * Properties *)
(* ===================================================================== *)

(** ** Strings *)

Lemma str_eqb_eq (a b : str) : str_eqb a b = true <-> a = b.
Proof.
  revert b; induction a as [|x a IH]; intros [|y b]; simpl;
    try (split; [discriminate | congruence]); try tauto.
  rewrite andb_true_iff, N.eqb_eq, IH.
  split; [intros [-> ->]; reflexivity | intros [= -> ->]; auto].
Qed.

Lemma str_eqb_refl (a : str) : str_eqb a a = true.
Proof. apply str_eqb_eq; reflexivity. Qed.

Lemma str_eqb_neq (a b : str) : str_eqb a b = false <-> a <> b.
Proof.
  rewrite <- str_eqb_eq. destruct (str_eqb a b); split; congruence.
Qed.

Lemma str_eqb_sym (a b : str) : str_eqb a b = str_eqb b a.
Proof.
  destruct (str_eqb b a) eqn:E.
  - apply str_eqb_eq in E; subst; apply str_eqb_refl.
  - apply str_eqb_neq. apply str_eqb_neq in E. congruence.
Qed.

Lemma prefixb_spec (p s : str) :
  prefixb p s = true <-> exists t, s = p ++ t.
Proof.
  revert s; induction p as [|x p IH]; intros s; simpl.
  - split; [intros _; exists s; reflexivity | reflexivity].
  - destruct s as [|y s].
    + split; [discriminate | intros [t H]; discriminate].
    + rewrite andb_true_iff, N.eqb_eq, IH. split.
      * intros [-> [t ->]]. exists t; reflexivity.
      * intros [t [= -> ->]]. split; [reflexivity | exists t; reflexivity].
Qed.

(** [rstrip] only removes dashes, and only from the end. *)
Lemma rstrip_dash_decomp (s : str) :
  exists n, s = rstrip_dash s ++ repeat dash n.
Proof.
  induction s as [|c s [n IH]]; simpl.
  - exists 0; reflexivity.
  - destruct (rstrip_dash s) as [|d r] eqn:E.
    + destruct (N.eqb_spec c dash) as [->|_].
      * exists (S n). simpl in *. congruence.
      * exists n. simpl in *. congruence.
    + exists n. simpl in *. congruence.
Qed.

Lemma endswith_dash_cons (c : codepoint) (s : str) :
  s <> [] -> endswith_dash (c :: s) = endswith_dash s.
Proof. destruct s; [congruence | reflexivity]. Qed.

Lemma endswith_rstrip_dash (s : str) :
  endswith_dash (rstrip_dash s) = false.
Proof.
  induction s as [|c s IH]; simpl; [reflexivity|].
  destruct (rstrip_dash s) as [|d r] eqn:E.
  - destruct (N.eqb_spec c dash) as [->|Hc]; simpl; [reflexivity|].
    apply N.eqb_neq; exact Hc.
  - rewrite endswith_dash_cons by discriminate. exact IH.
Qed.

Lemma rstrip_dash_fixed (s : str) :
  endswith_dash s = false -> rstrip_dash s = s.
Proof.
  induction s as [|c s IH]; simpl; [reflexivity|].
  destruct s as [|d s].
  - simpl. intros ->. reflexivity.
  - intros H. rewrite (IH H). reflexivity.
Qed.

Lemma endswith_dash_app (s : str) : endswith_dash (s ++ [dash]) = true.
Proof.
  induction s as [|c s IH]; simpl; [reflexivity|].
  destruct (s ++ [dash]) eqn:E; [destruct s; discriminate | exact IH].
Qed.

Lemma endswith_dash_repeat (s : str) (n : nat) :
  endswith_dash (s ++ repeat dash (S n)) = true.
Proof.
  replace (s ++ repeat dash (S n)) with ((s ++ repeat dash n) ++ [dash]).
  - apply endswith_dash_app.
  - rewrite <- app_assoc. f_equal.
    change [dash] with (repeat dash 1). rewrite <- repeat_app.
    f_equal. lia.
Qed.

Lemma rstrip_dash_app (s : str) : rstrip_dash (s ++ [dash]) = rstrip_dash s.
Proof.
  induction s as [|c s IH]; simpl; [reflexivity|].
  rewrite IH. reflexivity.
Qed.

Lemma rstrip_dash_idempotent (s : str) :
  rstrip_dash (rstrip_dash s) = rstrip_dash s.
Proof. apply rstrip_dash_fixed, endswith_rstrip_dash. Qed.

(** ** Dictionaries *)

Section DictFacts.
Variable V : Type.
Implicit Types (d : PyDict.t V) (k : str) (v : V).

Lemma mem_str_In k (l : list str) : Session.mem_str k l = true <-> In k l.
Proof.
  induction l as [|x l IH]; simpl; [split; [discriminate | tauto]|].
  rewrite orb_true_iff, str_eqb_eq, IH. tauto.
Qed.

Lemma nodup_str_NoDup (l : list str) :
  Session.nodup_str l = true <-> NoDup l.
Proof.
  induction l as [|x l IH]; simpl.
  - split; [constructor | reflexivity].
  - rewrite andb_true_iff, negb_true_iff, IH. split.
    + intros [Hm Hn]. constructor; [|exact Hn].
      rewrite <- mem_str_In. congruence.
    + intros H; inversion H as [|? ? Hx Hl]; subst. split; [|exact Hl].
      destruct (Session.mem_str x l) eqn:E; [|reflexivity].
      apply mem_str_In in E. contradiction.
Qed.

Lemma keys_eqb_eq (a b : list str) : Session.keys_eqb a b = true <-> a = b.
Proof.
  revert b; induction a as [|x a IH]; intros [|y b]; simpl;
    try (split; [discriminate | congruence]); try tauto.
  rewrite andb_true_iff, str_eqb_eq, IH.
  split; [intros [-> ->]; reflexivity | intros [= -> ->]; auto].
Qed.

Lemma contains_In d k : PyDict.contains d k = true <-> In k (PyDict.keys d).
Proof.
  unfold PyDict.contains.
  induction d as [|[k' v'] d IH]; simpl; [split; [discriminate | tauto]|].
  destruct (str_eqb k' k) eqn:E.
  - apply str_eqb_eq in E. tauto.
  - apply str_eqb_neq in E. rewrite IH. tauto.
Qed.

Lemma contains_false d k :
  PyDict.contains d k = false <-> ~ In k (PyDict.keys d).
Proof.
  rewrite <- contains_In. destruct (PyDict.contains d k); split; congruence.
Qed.

Lemma get_None d k : PyDict.get d k = None <-> ~ In k (PyDict.keys d).
Proof.
  rewrite <- contains_false. unfold PyDict.contains.
  destruct (PyDict.get d k); split; congruence.
Qed.

Lemma get_In d k v : PyDict.get d k = Some v -> In (k, v) d.
Proof.
  induction d as [|[k' v'] d IH]; simpl; [discriminate|].
  destruct (str_eqb k' k) eqn:E.
  - apply str_eqb_eq in E. intros [= ->]. left; congruence.
  - auto.
Qed.

Lemma keys_set_present d k v :
  In k (PyDict.keys d) -> PyDict.keys (PyDict.set d k v) = PyDict.keys d.
Proof.
  induction d as [|[k' v'] d IH]; simpl; [tauto|].
  destruct (str_eqb k' k) eqn:E; [reflexivity|].
  apply str_eqb_neq in E. intros [H|H]; [contradiction|].
  simpl. f_equal. apply IH, H.
Qed.

Lemma set_fresh d k v :
  ~ In k (PyDict.keys d) -> PyDict.set d k v = d ++ [(k, v)].
Proof.
  induction d as [|[k' v'] d IH]; simpl; [reflexivity|].
  intros H. destruct (str_eqb k' k) eqn:E.
  - apply str_eqb_eq in E. tauto.
  - f_equal. apply IH. tauto.
Qed.

Lemma get_set_same d k v : PyDict.get (PyDict.set d k v) k = Some v.
Proof.
  induction d as [|[k' v'] d IH]; simpl.
  - rewrite str_eqb_refl. reflexivity.
  - destruct (str_eqb k' k) eqn:E; simpl; rewrite E; auto.
Qed.

Lemma get_set_other d k k' v :
  k' <> k -> PyDict.get (PyDict.set d k v) k' = PyDict.get d k'.
Proof.
  intros Hk. induction d as [|[k0 v0] d IH]; simpl.
  - destruct (str_eqb k k') eqn:E; [|reflexivity].
    apply str_eqb_eq in E. congruence.
  - destruct (str_eqb k0 k) eqn:E; simpl.
    + apply str_eqb_eq in E; subst k0.
      destruct (str_eqb k k') eqn:E'; [|reflexivity].
      apply str_eqb_eq in E'. congruence.
    + rewrite IH. reflexivity.
Qed.

Lemma keys_adjust (f : V -> V) d k :
  PyDict.keys (PyDict.adjust f d k) = PyDict.keys d.
Proof.
  induction d as [|[k' v'] d IH]; simpl; [reflexivity|].
  destruct (str_eqb k' k); simpl; [reflexivity | f_equal; exact IH].
Qed.

Lemma get_adjust_same (f : V -> V) d k :
  PyDict.get (PyDict.adjust f d k) k = option_map f (PyDict.get d k).
Proof.
  induction d as [|[k' v'] d IH]; simpl; [reflexivity|].
  destruct (str_eqb k' k) eqn:E; simpl; rewrite E; auto.
Qed.

Lemma get_adjust_other (f : V -> V) d k k' :
  k' <> k -> PyDict.get (PyDict.adjust f d k) k' = PyDict.get d k'.
Proof.
  intros Hk. induction d as [|[k0 v0] d IH]; simpl; [reflexivity|].
  destruct (str_eqb k0 k) eqn:E; simpl.
  - apply str_eqb_eq in E; subst k0.
    destruct (str_eqb k k') eqn:E'; [|reflexivity].
    apply str_eqb_eq in E'. congruence.
  - rewrite IH. reflexivity.
Qed.

(** Deleting by key is filtering by key on a valid dictionary. *)
Lemma del_filter d k :
  NoDup (PyDict.keys d) ->
  PyDict.del d k = filter (fun kv => negb (str_eqb (fst kv) k)) d.
Proof.
  induction d as [|[k' v'] d IH]; simpl; [reflexivity|].
  intros H; inversion H as [|? ? Hk Hd]; subst.
  destruct (str_eqb k' k) eqn:E; simpl.
  - apply str_eqb_eq in E; subst k'.
    symmetry. rewrite (proj2 (filter_ext_in_iff _ (fun _ => true) d)).
    + clear. induction d as [|x d IH]; simpl; congruence.
    + intros [k0 v0] Hin. simpl. apply negb_true_iff, str_eqb_neq.
      intros ->. apply Hk. apply (in_map fst) in Hin. exact Hin.
  - f_equal. apply IH, Hd.
Qed.

Lemma keys_filter_NoDup (p : str * V -> bool) d :
  NoDup (PyDict.keys d) -> NoDup (PyDict.keys (filter p d)).
Proof.
  induction d as [|[k v] d IH]; simpl; [constructor|].
  intros H; inversion H as [|? ? Hk Hd]; subst.
  destruct (p (k, v)); simpl; [constructor|]; auto.
  intros Hin. apply Hk. unfold PyDict.keys in *.
  apply in_map_iff in Hin as [[k0 v0] [<- Hin]].
  apply filter_In in Hin as [Hin _]. apply (in_map fst) in Hin. exact Hin.
Qed.
End DictFacts.

(** ** Session identifiers *)

Import Session.

(** C8.  Confirming an identifier never touches the store and returns the
    identifier without its trailing dashes; confirming twice is confirming
    once; and for a provisional identifier (one ending with the dash) at
    least one dash is removed and the result is no longer provisional. *)
Theorem get_clean_session_id_confirms (self : SessionManager) (sid : str) :
  get_clean_session_id sid self = Return (rstrip_dash sid) self /\
  (clean <- get_clean_session_id sid ;; get_clean_session_id clean) self
    = get_clean_session_id sid self /\
  (is_new_session sid self = Return true self ->
   is_new_session (rstrip_dash sid) self = Return false self /\
   (exists n, sid = rstrip_dash sid ++ repeat dash (S n)) /\
   (forall u, sid = u ++ [dash] -> endswith_dash u = false ->
              get_clean_session_id sid self = Return u self)).
Proof.
  split; [reflexivity|]. split.
  - unfold get_clean_session_id, bind, ret.
    rewrite rstrip_dash_idempotent. reflexivity.
  - unfold is_new_session, get_clean_session_id, ret.
    intros [= Hnew]. split; [|split].
    + rewrite endswith_rstrip_dash. reflexivity.
    + destruct (rstrip_dash_decomp sid) as [[|n] Hn]; [|exists n; exact Hn].
      simpl in Hn. rewrite app_nil_r in Hn.
      pose proof (endswith_rstrip_dash sid) as Hc.
      rewrite <- Hn in Hc. congruence.
    + intros u -> Hu. rewrite rstrip_dash_app, (rstrip_dash_fixed u Hu).
      reflexivity.
Qed.

Lemma get_clean_session_id_confirms_witness :
  is_new_session (rstrip_dash (py "0af3-")) init = Return false init /\
  (exists n, py "0af3-" = rstrip_dash (py "0af3-") ++ repeat dash (S n)) /\
  (forall u, py "0af3-" = u ++ [dash] -> endswith_dash u = false ->
             get_clean_session_id (py "0af3-") init = Return u init).
Proof.
  apply (get_clean_session_id_confirms init (py "0af3-")).
  reflexivity.
Defined.

Lemma endswith_dash_iff (s : str) :
  endswith_dash s = true <-> exists u, s = u ++ [dash].
Proof.
  split.
  - intros H. destruct (rstrip_dash_decomp s) as [[|n] Hn].
    + simpl in Hn. rewrite app_nil_r in Hn.
      pose proof (endswith_rstrip_dash s) as Hc.
      rewrite <- Hn in Hc. congruence.
    + exists (rstrip_dash s ++ repeat dash n).
      rewrite <- app_assoc, <- repeat_cons. exact Hn.
  - intros [u ->]. apply endswith_dash_app.
Qed.

(** C10.  What [get_clean_session_id] returns is never provisional for
    [is_new_session]: it is its argument without all of its trailing
    dashes, not only one, and it is the argument itself exactly when
    [is_new_session] rejects the argument, that is, when the argument does
    not end with the dash. *)
Theorem confirmed_is_not_provisional (self : SessionManager) (s : str) :
  exists c,
    get_clean_session_id s self = Return c self /\
    (clean <- get_clean_session_id s ;; is_new_session clean) self
    = Return false self /\
    is_new_session c self = Return false self /\
    (exists n, s = c ++ repeat dash n) /\
    (c = s <-> is_new_session s self = Return false self) /\
    (is_new_session s self = Return true self <->
     exists u, s = u ++ [dash]).
Proof.
  exists (rstrip_dash s). split; [reflexivity|].
  unfold get_clean_session_id, is_new_session, bind, ret.
  rewrite endswith_rstrip_dash.
  split; [reflexivity|]. split; [reflexivity|].
  split; [apply rstrip_dash_decomp|]. split.
  - split.
    + intros <-. rewrite endswith_rstrip_dash. reflexivity.
    + intros [= H]. apply rstrip_dash_fixed, H.
  - rewrite <- endswith_dash_iff. split; [intros [= H]; exact H|].
    intros ->. reflexivity.
Qed.

(** ** More on dictionaries: keys, filters and deletion *)

Section DictKeys.
Variable V : Type.
Implicit Types (d : PyDict.t V) (k : str) (l : list str).

Lemma contains_mem d k :
  PyDict.contains d k = mem_str k (PyDict.keys d).
Proof.
  destruct (mem_str k (PyDict.keys d)) eqn:E.
  - apply contains_In, mem_str_In, E.
  - apply contains_false. rewrite <- mem_str_In. congruence.
Qed.

Lemma NoDup_snoc (A : Type) (l : list A) (x : A) :
  NoDup l -> ~ In x l -> NoDup (l ++ [x]).
Proof.
  induction l as [|y l IH]; simpl; intros Hl Hx.
  - constructor; [tauto | constructor].
  - inversion Hl as [|? ? Hy Hl']; subst. constructor.
    + rewrite in_app_iff. simpl. intuition congruence.
    + apply IH; tauto.
Qed.

Lemma keys_set d k (v : V) :
  PyDict.keys (PyDict.set d k v) =
  if PyDict.contains d k then PyDict.keys d else PyDict.keys d ++ [k].
Proof.
  destruct (PyDict.contains d k) eqn:E.
  - apply keys_set_present, contains_In, E.
  - rewrite set_fresh by (apply contains_false, E).
    unfold PyDict.keys. rewrite map_app. reflexivity.
Qed.

Lemma NoDup_keys_functional d k (v v' : V) :
  NoDup (PyDict.keys d) -> In (k, v) d -> In (k, v') d -> v = v'.
Proof.
  induction d as [|[k0 v0] d IH]; simpl; [tauto|].
  intros H; inversion H as [|? ? Hk Hd]; subst.
  intros [[= -> ->]|H1] [[= ->]|H2]; auto.
  - exfalso. apply Hk. apply (in_map fst) in H2. exact H2.
  - exfalso. apply Hk. apply (in_map fst) in H1. exact H1.
Qed.

Lemma filter_all_true (A : Type) (p : A -> bool) (l : list A) :
  (forall x, In x l -> p x = true) -> filter p l = l.
Proof.
  induction l as [|x l IH]; simpl; intros H; [reflexivity|].
  rewrite (H x) by tauto. f_equal. apply IH. auto.
Qed.

Lemma filter_all_false (A : Type) (p : A -> bool) (l : list A) :
  (forall x, In x l -> p x = false) -> filter p l = [].
Proof.
  induction l as [|x l IH]; simpl; intros H; [reflexivity|].
  rewrite (H x) by tauto. apply IH. auto.
Qed.

Lemma without_keys_nil d : without_keys [] d = d.
Proof. apply filter_all_true. reflexivity. Qed.

Lemma keys_without l d :
  PyDict.keys (without_keys l d) =
  filter (fun k => negb (mem_str k l)) (PyDict.keys d).
Proof.
  induction d as [|[k v] d IH]; simpl; [reflexivity|].
  destruct (mem_str k l); simpl; congruence.
Qed.

Lemma del_without d k :
  NoDup (PyDict.keys d) -> PyDict.del d k = without_keys [k] d.
Proof.
  intros H. rewrite del_filter by exact H.
  apply filter_ext. intros [k' v]. simpl.
  rewrite orb_false_r, str_eqb_sym. reflexivity.
Qed.

Lemma without_keys_cons l d k :
  without_keys l (without_keys [k] d) = without_keys (k :: l) d.
Proof.
  induction d as [|[k' v] d IH]; simpl; [reflexivity|].
  rewrite orb_false_r.
  destruct (str_eqb k k') eqn:E; simpl; [exact IH|].
  destruct (mem_str k' l); simpl; congruence.
Qed.

Lemma NoDup_filter (A : Type) (p : A -> bool) (l : list A) :
  NoDup l -> NoDup (filter p l).
Proof.
  induction l as [|x l IH]; simpl; intros H; [constructor|].
  inversion H as [|? ? Hx Hl]; subst.
  destruct (p x); [constructor|]; auto.
  rewrite filter_In. tauto.
Qed.
End DictKeys.

(** ** The store invariant *)

Lemma store_ok_iff (self : SessionManager) :
  store_ok self = true <->
  NoDup (PyDict.keys (active_sessions self)) /\
  PyDict.keys (active_sessions self) = PyDict.keys (session_history self).
Proof.
  unfold store_ok.
  rewrite andb_true_iff, nodup_str_NoDup, keys_eqb_eq. tauto.
Qed.

Lemma store_ok_contains (self : SessionManager) (k : str) :
  store_ok self = true ->
  PyDict.contains (session_history self) k
  = PyDict.contains (active_sessions self) k.
Proof.
  intros [_ H]%store_ok_iff. rewrite !contains_mem, H. reflexivity.
Qed.

Lemma store_ok_without (self : SessionManager) (l : list str) :
  store_ok self = true ->
  store_ok {| active_sessions := without_keys l (active_sessions self);
              session_history := without_keys l (session_history self) |}
  = true.
Proof.
  intros [Hn He]%store_ok_iff. apply store_ok_iff; simpl.
  rewrite !keys_without, <- He. split; [|reflexivity].
  apply NoDup_filter, Hn.
Qed.

Lemma create_session_ok (u : str) (now : datetime) (user : option str)
  (self : SessionManager) :
  store_ok self = true ->
  exists self',
    create_session u now user self = Return (u ++ [dash]) self' /\
    store_ok self' = true.
Proof.
  intros Hok. eexists.
  split; [cbv [create_session bind get_self put_self ret]; reflexivity|].
  pose proof (store_ok_contains self (u ++ [dash]) Hok) as Hc.
  apply store_ok_iff in Hok as [Hn He].
  apply store_ok_iff; simpl. rewrite !keys_set, Hc, <- He.
  destruct (PyDict.contains (active_sessions self) (u ++ [dash])) eqn:E;
    [tauto|].
  split; [|reflexivity]. apply NoDup_snoc; [exact Hn|].
  apply contains_false, E.
Qed.

Lemma update_session_ok (sid q qid a : str) (now : datetime)
  (self : SessionManager) :
  store_ok self = true ->
  exists self',
    update_session sid q qid a now self = Return tt self' /\
    store_ok self' = true.
Proof.
  intros Hok. unfold update_session, bind, get_self.
  destruct (PyDict.contains (active_sessions self) sid) eqn:E;
    [|exists self; split; [reflexivity | exact Hok]].
  pose proof (store_ok_contains self sid Hok) as Hc. rewrite E in Hc.
  destruct (PyDict.get (session_history self) sid) as [h|] eqn:G.
  - eexists. split; [reflexivity|].
    apply store_ok_iff in Hok as [Hn He]. apply store_ok_iff; simpl.
    rewrite keys_adjust, keys_set, Hc. tauto.
  - unfold PyDict.contains in Hc. rewrite G in Hc. discriminate.
Qed.

Lemma end_session_ok (sid : str) (now : datetime) (self : SessionManager) :
  store_ok self = true ->
  exists self',
    end_session sid now self = Return tt self' /\ store_ok self' = true.
Proof.
  intros Hok. unfold end_session, bind, get_self.
  destruct (PyDict.contains (active_sessions self) sid);
    [|exists self; split; [reflexivity | exact Hok]].
  eexists. split; [reflexivity|].
  apply store_ok_iff in Hok as [Hn He]. apply store_ok_iff; simpl.
  rewrite keys_adjust. tauto.
Qed.

Lemma bind_Return (A B : Type) (c : M A) (k : A -> M B)
  (self self' : SessionManager) (a : A) :
  c self = Return a self' -> bind c k self = k a self'.
Proof. unfold bind. intros ->. reflexivity. Qed.

(** One round of the removal loop of [cleanup_old_sessions]. *)
Lemma remove_one (k : str) (self : SessionManager) :
  store_ok self = true ->
  PyDict.contains (active_sessions self) k = true ->
  (del_active k ;; del_history_if_present k) self
  = Return tt
      {| active_sessions := without_keys [k] (active_sessions self);
         session_history := without_keys [k] (session_history self) |}.
Proof.
  intros Hok Hin.
  pose proof (store_ok_contains self k Hok) as Hc. rewrite Hin in Hc.
  pose proof Hok as [Hn He]%store_ok_iff.
  unfold del_active, del_history_if_present, bind, get_self, put_self.
  rewrite Hin. cbn [session_history active_sessions]. rewrite Hc.
  rewrite !del_without by (rewrite <- ?He; exact Hn). reflexivity.
Qed.

(** The whole loop, on keys of the store. *)
Lemma remove_loop (l : list str) :
  forall self : SessionManager,
    store_ok self = true ->
    NoDup l ->
    incl l (PyDict.keys (active_sessions self)) ->
    for_each l (fun k => del_active k ;; del_history_if_present k) self
    = Return tt
        {| active_sessions := without_keys l (active_sessions self);
           session_history := without_keys l (session_history self) |}.
Proof.
  induction l as [|k l IH]; intros self Hok Hl Hincl.
  - simpl. rewrite !without_keys_nil. destruct self; reflexivity.
  - inversion Hl as [|? ? Hk Hl']; subst.
    assert (Hin : PyDict.contains (active_sessions self) k = true)
      by (apply contains_In, Hincl; left; reflexivity).
    cbn [for_each].
    rewrite (@bind_Return _ _ _ _ _ _ _ (remove_one k self Hok Hin)).
    rewrite IH.
    + cbn [session_history active_sessions].
      rewrite !without_keys_cons. reflexivity.
    + apply store_ok_without, Hok.
    + exact Hl'.
    + intros k' Hk'. cbn [active_sessions]. rewrite keys_without.
      apply filter_In. split; [apply Hincl; right; exact Hk'|].
      simpl. rewrite orb_false_r. apply negb_true_iff, str_eqb_neq.
      congruence.
Qed.

Lemma without_swept (cutoff : PyFloat.float) (d : PyDict.t SessionInfo) :
  NoDup (PyDict.keys d) -> without_keys (swept cutoff d) d = kept cutoff d.
Proof.
  intros Hn. apply filter_ext_in. intros [k v] Hin. simpl. f_equal.
  destruct (is_old cutoff v) eqn:E.
  - apply mem_str_In. unfold swept.
    change k with (fst (k, v)). apply in_map, filter_In. auto.
  - destruct (mem_str k (swept cutoff d)) eqn:M; [|reflexivity].
    apply mem_str_In in M. unfold swept in M.
    apply in_map_iff in M as [[k' v'] [Hk [Hin' Hold]%filter_In]].
    simpl in Hk, Hold; subst k'.
    rewrite (NoDup_keys_functional d k v v' Hn Hin Hin') in E. congruence.
Qed.

(** A sweep whose age does not fit a float raises before it touches the
    store. *)
Lemma cleanup_old_sessions_overflow (age : Z) (now : datetime)
  (self : SessionManager) :
  PyFloat.is_inf (PyFloat.of_int (age * 3600)) = true ->
  cleanup_old_sessions age now self = Raise OverflowError self.
Proof.
  intros Hinf. unfold cleanup_old_sessions, cutoff_time_of, bind, raise.
  rewrite Hinf. reflexivity.
Qed.

(** What a sweep does to a store that satisfies the invariant. *)
Lemma cleanup_old_sessions_spec (age : Z) (now : datetime)
  (self : SessionManager) :
  store_ok self = true ->
  PyFloat.is_inf (PyFloat.of_int (age * 3600)) = false ->
  let cutoff :=
    PyFloat.sub (PyFloat.timestamp now) (PyFloat.of_int (age * 3600)) in
  let removed := swept cutoff (active_sessions self) in
  cleanup_old_sessions age now self
  = Return (length removed)
      {| active_sessions := kept cutoff (active_sessions self);
         session_history := without_keys removed (session_history self) |}.
Proof.
  intros Hok Hfin cutoff removed. pose proof Hok as [Hn He]%store_ok_iff.
  assert (Ec : cutoff_time_of age now self = Return cutoff self)
    by (unfold cutoff_time_of; rewrite Hfin; reflexivity).
  assert (Hloop : for_each removed
                    (fun k => del_active k ;; del_history_if_present k) self
                  = Return tt
                      {| active_sessions :=
                           without_keys removed (active_sessions self);
                         session_history :=
                           without_keys removed (session_history self) |}).
  { apply remove_loop; [exact Hok | apply keys_filter_NoDup, Hn|].
    intros k Hk. unfold removed, swept in Hk.
    apply in_map_iff in Hk as [kv [<- [Hin _]%filter_In]].
    apply in_map, Hin. }
  unfold cleanup_old_sessions.
  rewrite (@bind_Return _ _ _ _ _ _ _ Ec).
  rewrite (@bind_Return _ _ get_self _ self self self eq_refl).
  cbv zeta. unfold PyDict.items.
  fold (swept cutoff (active_sessions self)). fold removed.
  rewrite (@bind_Return _ _ _ _ _ _ _ Hloop).
  unfold ret. subst removed. rewrite without_swept by exact Hn. reflexivity.
Qed.

Lemma cleanup_old_sessions_ok (age : Z) (now : datetime)
  (self : SessionManager) :
  store_ok self = true ->
  (exists n self',
     cleanup_old_sessions age now self = Return n self' /\
     store_ok self' = true) \/
  cleanup_old_sessions age now self = Raise OverflowError self.
Proof.
  intros Hok.
  destruct (PyFloat.is_inf (PyFloat.of_int (age * 3600))) eqn:Hfin.
  - right. apply cleanup_old_sessions_overflow, Hfin.
  - left. rewrite (cleanup_old_sessions_spec age now self Hok Hfin).
    do 2 eexists. split; [reflexivity|].
    pose proof Hok as [Hn _]%store_ok_iff.
    rewrite <- without_swept by exact Hn. apply store_ok_without, Hok.
Qed.

Lemma bind_Raise (A B : Type) (c : M A) (k : A -> M B)
  (self self' : SessionManager) (e : exn) :
  c self = Raise e self' -> bind c k self = Raise e self'.
Proof. unfold bind. intros ->. reflexivity. Qed.

(** A call keeps the invariant, and the only exception it can raise on a
    store that satisfies it is the [OverflowError] of a sweep. *)
Lemma perform_ok (c : call) (self : SessionManager) :
  store_ok self = true ->
  store_ok (store_after (perform c self)) = true /\
  Forall (fun e => e = OverflowError) (raised (perform c self)).
Proof.
  intros Hok. destruct c as [u now user|sid q qid a now|sid now|age now];
    cbn [perform].
  - destruct (create_session_ok u now user self Hok) as [self' [E H]].
    rewrite (@bind_Return _ _ _ _ _ _ _ E). unfold ret. simpl. auto.
  - destruct (update_session_ok sid q qid a now self Hok) as [self' [E H]].
    rewrite E. simpl. auto.
  - destruct (end_session_ok sid now self Hok) as [self' [E H]].
    rewrite E. simpl. auto.
  - destruct (cleanup_old_sessions_ok age now self Hok)
      as [[n [self' [E H]]]|E].
    + rewrite (@bind_Return _ _ _ _ _ _ _ E). unfold ret. simpl. auto.
    + rewrite (@bind_Raise _ _ _ _ _ _ _ E). simpl. auto.
Qed.

Lemma run_ok (calls : list call) :
  forall self : SessionManager,
    store_ok self = true ->
    store_ok (snd (run calls self)) = true /\
    Forall (fun e => e = OverflowError) (fst (run calls self)).
Proof.
  induction calls as [|c calls IH]; intros self Hok.
  - simpl. auto.
  - destruct (perform_ok c self Hok) as [H1 He1].
    destruct (IH _ H1) as [H He].
    cbn [run]. destruct (run calls (store_after (perform c self))) as [es s'].
    cbn [fst snd] in *. split; [exact H|].
    apply Forall_app. auto.
Qed.

(** ** The session store *)

(** C9.  After any sequence of [create_session], [update_session],
    [end_session] and [cleanup_old_sessions] calls on a new manager, the
    caller going on after a call that raises, no call has raised a
    [KeyError] (the only exception on the way is the [OverflowError] of a
    sweep whose maximal age is too large for a float), and the store
    satisfies its invariant: the two dictionaries have the same keys (in
    the same order), so every stored session has a history list, and a
    further [update_session] does not raise. *)
Theorem history_keys_follow_sessions (calls : list call) :
  exists self,
    state_after calls = self /\
    Forall (fun e => e = OverflowError) (fst (run calls init)) /\
    store_ok self = true /\
    PyDict.keys (active_sessions self) = PyDict.keys (session_history self) /\
    (forall k,
       PyDict.contains (active_sessions self) k = true ->
       exists h, PyDict.get (session_history self) k = Some h) /\
    (forall sid q qid a now,
       exists self', update_session sid q qid a now self = Return tt self').
Proof.
  destruct (run_ok calls init eq_refl) as [Hok He].
  exists (state_after calls). split; [reflexivity|]. split; [exact He|].
  fold (state_after calls) in Hok. set (self := state_after calls) in *.
  split; [exact Hok|]. split; [apply store_ok_iff, Hok|]. split.
  - intros k Hk. rewrite <- (store_ok_contains self k Hok) in Hk.
    unfold PyDict.contains in Hk.
    destruct (PyDict.get (session_history self) k) as [h|];
      [exists h; reflexivity | discriminate].
  - intros sid q qid a now.
    destruct (update_session_ok sid q qid a now self Hok) as [self' [E' _]].
    exists self'. exact E'.
Qed.

(** C6.  On a store that satisfies the invariant, [update_session] on a
    stored session returns normally, the history of that session is the old
    one followed by the new turn (one entry longer), and every other history
    is the same; on an identifier that is not stored it returns normally and
    the store is the same. *)
Theorem update_session_appends_one_turn (self : SessionManager)
  (sid q qid a : str) (now : datetime) :
  store_ok self = true ->
  (PyDict.contains (active_sessions self) sid = true ->
   exists self' h,
     update_session sid q qid a now self = Return tt self' /\
     get_session_history sid self = Return h self /\
     get_session_history sid self'
     = Return (h ++ [{| query_id := qid; query_text := q;
                        answer := a; timestamp := now |}]) self' /\
     (forall h', get_session_history sid self' = Return h' self' ->
                 length h' = S (length h)) /\
     (forall k, k <> sid ->
                value_of (get_session_history k self')
                = value_of (get_session_history k self))) /\
  (PyDict.contains (active_sessions self) sid = false ->
   update_session sid q qid a now self = Return tt self).
Proof.
  intros Hok. split; intros Hin.
  - pose proof (store_ok_contains self sid Hok) as Hc. rewrite Hin in Hc.
    unfold PyDict.contains in Hc.
    destruct (PyDict.get (session_history self) sid) as [h|] eqn:G;
      [|discriminate].
    eexists. exists h. unfold update_session, get_session_history, bind,
      get_self, put_self, ret. rewrite Hin, G.
    cbn [session_history active_sessions].
    split; [reflexivity|]. split; [reflexivity|].
    cbn [session_history active_sessions].
    rewrite get_set_same. split; [reflexivity|]. split.
    + intros h' [= <-]. rewrite length_app. simpl. lia.
    + intros k Hk. simpl. rewrite get_set_other by exact Hk. reflexivity.
  - unfold update_session, bind, get_self. rewrite Hin. reflexivity.
Qed.

Lemma update_session_appends_one_turn_witness :
  exists self' h,
    update_session (py "0af3-") (py "q") (py "7") (py "answer_7") 9
      {| active_sessions :=
           [(py "0af3-",
             {| session_id := py "0af3-"; user_pseudo_id := None;
                start_time := Some 5%Z; end_time := None;
                state := IN_PROGRESS; turns := TurnsInitial |})];
         session_history := [(py "0af3-", [])] |}
    = Return tt self' /\
    get_session_history (py "0af3-") self' = Return h self' /\
    length h = 1.
Proof.
  destruct (update_session_appends_one_turn
              {| active_sessions :=
                   [(py "0af3-",
                     {| session_id := py "0af3-"; user_pseudo_id := None;
                        start_time := Some 5%Z; end_time := None;
                        state := IN_PROGRESS; turns := TurnsInitial |})];
                 session_history := [(py "0af3-", [])] |}
              (py "0af3-") (py "q") (py "7") (py "answer_7") 9 eq_refl)
    as [Hpresent _].
  destruct (Hpresent eq_refl) as [self' [h [E [E0 [E1 [Hlen _]]]]]].
  exists self'. eexists. split; [exact E|]. split; [exact E1|].
  injection E0 as <-. rewrite length_app. reflexivity.
Defined.

(** C2 (as the code has it).  [end_session] on a stored session sets its
    state to [COMPLETED] and its [end_time] to the time of the call, and
    changes nothing else; a second call does the same again, so the
    [end_time] is then the time of the second call. *)
Theorem end_session_sets_end_time (self : SessionManager) (sid : str)
  (s : SessionInfo) (now now' : datetime) :
  PyDict.get (active_sessions self) sid = Some s ->
  exists self1 self2 s1 s2,
    end_session sid now self = Return tt self1 /\
    end_session sid now' self1 = Return tt self2 /\
    PyDict.get (active_sessions self1) sid = Some s1 /\
    PyDict.get (active_sessions self2) sid = Some s2 /\
    state s1 = COMPLETED /\ end_time s1 = Some now /\
    state s2 = COMPLETED /\ end_time s2 = Some now' /\
    s1 = set_ended now s /\ s2 = set_ended now' s /\
    session_history self2 = session_history self /\
    PyDict.keys (active_sessions self2) = PyDict.keys (active_sessions self) /\
    (forall k, k <> sid ->
       PyDict.get (active_sessions self2) k
       = PyDict.get (active_sessions self) k).
Proof.
  intros G.
  assert (Hin : PyDict.contains (active_sessions self) sid = true)
    by (unfold PyDict.contains; rewrite G; reflexivity).
  set (self1 := {| active_sessions :=
                     PyDict.adjust (set_ended now) (active_sessions self) sid;
                   session_history := session_history self |}).
  assert (G1 : PyDict.get (active_sessions self1) sid = Some (set_ended now s))
    by (simpl; rewrite get_adjust_same, G; reflexivity).
  assert (Hin1 : PyDict.contains (active_sessions self1) sid = true)
    by (unfold PyDict.contains; rewrite G1; reflexivity).
  exists self1. eexists. exists (set_ended now s), (set_ended now' s).
  split; [unfold end_session, bind, get_self; rewrite Hin; reflexivity|].
  split; [unfold end_session, bind, get_self; rewrite Hin1; reflexivity|].
  split; [exact G1|]. cbn [active_sessions session_history].
  split; [rewrite get_adjust_same, G1; reflexivity|].
  repeat (split; [reflexivity|]).
  split; [subst self1; simpl; rewrite !keys_adjust; reflexivity|].
  intros k Hk. subst self1. simpl.
  rewrite !get_adjust_other by exact Hk. reflexivity.
Qed.

Lemma end_session_sets_end_time_witness :
  exists self1 self2 s1 s2,
    end_session (py "0af3-") 10
      {| active_sessions :=
           [(py "0af3-",
             {| session_id := py "0af3-"; user_pseudo_id := None;
                start_time := Some 5%Z; end_time := None;
                state := IN_PROGRESS; turns := TurnsInitial |})];
         session_history := [(py "0af3-", [])] |}
    = Return tt self1 /\
    end_session (py "0af3-") 20 self1 = Return tt self2 /\
    PyDict.get (active_sessions self1) (py "0af3-") = Some s1 /\
    PyDict.get (active_sessions self2) (py "0af3-") = Some s2 /\
    end_time s1 = Some 10%Z /\ end_time s2 = Some 20%Z.
Proof.
  destruct (end_session_sets_end_time
              {| active_sessions :=
                   [(py "0af3-",
                     {| session_id := py "0af3-"; user_pseudo_id := None;
                        start_time := Some 5%Z; end_time := None;
                        state := IN_PROGRESS; turns := TurnsInitial |})];
                 session_history := [(py "0af3-", [])] |}
              (py "0af3-") 10 20 eq_refl)
    as [self1 [self2 [s1 [s2 [E1 [E2 [G1 [G2 [_ [T1 [_ [T2 _]]]]]]]]]]]].
  exists self1, self2, s1, s2. auto 10.
Defined.

(** C2, where the sentence of the spec fails: a session is created and
    ended at time 10; a second [end_session] at time 20 is not a no-op, the
    [end_time] moves from 10 to 20. *)
Lemma end_session_twice_moves_end_time :
  exists self1 self2 s1 s2,
    state_after [Create (py "0af3") 5 None; End (py "0af3-") 10]
    = self1 /\
    end_session (py "0af3-") 20 self1 = Return tt self2 /\
    PyDict.get (active_sessions self1) (py "0af3-") = Some s1 /\
    PyDict.get (active_sessions self2) (py "0af3-") = Some s2 /\
    state s1 = COMPLETED /\
    end_time s1 = Some 10%Z /\ end_time s2 = Some 20%Z /\
    end_time s2 <> end_time s1 /\ self2 <> self1.
Proof.
  do 4 eexists. repeat (split; [reflexivity|]). split; discriminate.
Qed.

Lemma filter_partition_length (A : Type) (p : A -> bool) (l : list A) :
  length (filter p l) + length (filter (fun x => negb (p x)) l) = length l.
Proof.
  induction l as [|x l IH]; simpl; [reflexivity|].
  destruct (p x); simpl; lia.
Qed.

Lemma is_old_iff (cutoff : PyFloat.float) (s : SessionInfo) :
  is_old cutoff s = true <->
  exists t, start_time s = Some t /\
            PyFloat.ltb (PyFloat.timestamp t) cutoff = true.
Proof.
  unfold is_old. destruct (start_time s) as [t|].
  - split; [intros H; exists t; auto|].
    intros [t' [[= ->] H]]. exact H.
  - split; [discriminate | intros [t [H _]]; discriminate].
Qed.

(** *** Floats: what the sweep needs *)

Lemma float_sub_zero (x : PyFloat.float) :
  PyFloat.sub x (PyFloat.of_int 0) = x.
Proof. destruct x as [[|]|[|]| |[|] m e]; reflexivity. Qed.

Lemma float_ltb_irrefl (x : PyFloat.float) : PyFloat.ltb x x = false.
Proof.
  unfold PyFloat.ltb, SFltb, SFcompare.
  destruct x as [[|]|[|]| |[|] m e]; try reflexivity;
    rewrite Z.compare_refl, Pos.compare_cont_refl; reflexivity.
Qed.

(** With a maximal age of 0 the cutoff is the time stamp of [now]. *)
Lemma cutoff_time_of_zero (now : datetime) (self : SessionManager) :
  cutoff_time_of 0 now self = Return (PyFloat.timestamp now) self.
Proof.
  unfold cutoff_time_of. rewrite Z.mul_0_l.
  change (PyFloat.is_inf (PyFloat.of_int 0)) with false.
  cbv iota. rewrite float_sub_zero. reflexivity.
Qed.

(** C7 (as the code has it).  On a store that satisfies the invariant,
    a sweep with maximal age 0 at time [now] returns normally, keeps exactly
    the sessions whose start time stamp is not strictly less, as a float,
    than the time stamp of [now] (whatever their state), removes the
    histories of the removed sessions, and returns the number of sessions
    removed; when the time stamp of every session is strictly less than
    that of [now], the store is empty afterwards and the number is the
    number of sessions there were; a session that started at [now] is
    kept.  On a new manager a sweep returns 0 when its age in seconds fits
    a float, as 0 does, and raises [OverflowError] otherwise. *)
Theorem cleanup_zero_age_removes_older (self : SessionManager)
  (now : datetime) :
  store_ok self = true ->
  exists n self',
    cleanup_old_sessions 0 now self = Return n self' /\
    (forall k s,
       In (k, s) (active_sessions self') <->
       In (k, s) (active_sessions self) /\
       ~ (exists t, start_time s = Some t /\
                    PyFloat.ltb (PyFloat.timestamp t) (PyFloat.timestamp now)
                    = true)) /\
    PyDict.keys (session_history self') = PyDict.keys (active_sessions self') /\
    n + length (active_sessions self') = length (active_sessions self) /\
    ((forall k s, In (k, s) (active_sessions self) ->
                  exists t, start_time s = Some t /\
                            PyFloat.ltb (PyFloat.timestamp t)
                              (PyFloat.timestamp now) = true) ->
     active_sessions self' = [] /\ session_history self' = [] /\
     n = length (active_sessions self)) /\
    (forall k s, In (k, s) (active_sessions self) ->
                 start_time s = Some now ->
                 In (k, s) (active_sessions self')) /\
    cleanup_old_sessions 0 now init = Return 0 init /\
    (forall age,
       cleanup_old_sessions age now init
       = if PyFloat.is_inf (PyFloat.of_int (age * 3600))
         then Raise OverflowError init
         else Return 0 init).
Proof.
  intros Hok. pose proof Hok as [Hn He]%store_ok_iff.
  pose proof (cleanup_old_sessions_spec 0 now self Hok eq_refl) as E.
  cbv zeta in E. rewrite Z.mul_0_l, float_sub_zero in E.
  set (ts := PyFloat.timestamp now) in *.
  do 2 eexists. split; [exact E|]. cbn [active_sessions session_history].
  assert (Hk : PyDict.keys
                 (without_keys (swept ts (active_sessions self))
                    (session_history self))
               = PyDict.keys (kept ts (active_sessions self))).
  { rewrite <- without_swept by exact Hn. rewrite !keys_without, He.
    reflexivity. }
  assert (Hlen : length (swept ts (active_sessions self))
                 + length (kept ts (active_sessions self))
                 = length (active_sessions self)).
  { unfold swept, kept. rewrite length_map. apply filter_partition_length. }
  assert (Hin : forall k s,
             In (k, s) (kept ts (active_sessions self)) <->
             In (k, s) (active_sessions self) /\
             ~ (exists t, start_time s = Some t /\
                          PyFloat.ltb (PyFloat.timestamp t) ts = true)).
  { intros k s. unfold kept. rewrite filter_In. simpl.
    rewrite negb_true_iff, <- is_old_iff.
    destruct (is_old ts s); intuition congruence. }
  split; [exact Hin|]. split; [exact Hk|]. split; [exact Hlen|].
  split; [|split; [|split]].
  - intros Hall.
    assert (Hkept : kept ts (active_sessions self) = []).
    { apply filter_all_false. intros [k s] Hks. simpl.
      apply negb_false_iff, is_old_iff, (Hall k s Hks). }
    rewrite Hkept in *. split; [reflexivity|]. split.
    + destruct (without_keys _ (session_history self)); [reflexivity|].
      discriminate.
    + simpl in Hlen. lia.
  - intros k s Hks Hs. apply Hin. split; [exact Hks|].
    intros [t [Ht Hlt]]. rewrite Hs in Ht. injection Ht as <-.
    unfold ts in Hlt. rewrite float_ltb_irrefl in Hlt. discriminate.
  - reflexivity.
  - intros age. unfold cleanup_old_sessions, cutoff_time_of, bind, raise.
    destruct (PyFloat.is_inf (PyFloat.of_int (age * 3600))); reflexivity.
Qed.

Lemma cleanup_zero_age_removes_older_witness :
  exists self',
    cleanup_old_sessions 0 6
      {| active_sessions :=
           [(py "0af3-",
             {| session_id := py "0af3-"; user_pseudo_id := None;
                start_time := Some 5%Z; end_time := None;
                state := IN_PROGRESS; turns := TurnsInitial |})];
         session_history := [(py "0af3-", [])] |}
    = Return 1 self' /\
    active_sessions self' = [] /\ session_history self' = [].
Proof.
  destruct (cleanup_zero_age_removes_older
              {| active_sessions :=
                   [(py "0af3-",
                     {| session_id := py "0af3-"; user_pseudo_id := None;
                        start_time := Some 5%Z; end_time := None;
                        state := IN_PROGRESS; turns := TurnsInitial |})];
                 session_history := [(py "0af3-", [])] |}
              6 eq_refl)
    as [n [self' [E [_ [_ [_ [Hall _]]]]]]].
  destruct Hall as [Ha [Hh Hlen]].
  - intros k s [[= <- <-]|[]]. exists 5%Z.
    split; [reflexivity | vm_compute; reflexivity].
  - exists self'. rewrite Hlen in E. split; [exact E | auto].
Defined.

(** C7, where the sentence of the spec fails: a sweep with maximal age 0
    at the very instant a session was created keeps that session and
    returns 0; and a sweep of a new manager with a maximal age too large
    for a float raises instead of returning 0. *)
Lemma cleanup_zero_age_keeps_session_of_now :
  exists self,
    state_after [Create (py "0af3") 5 None] = self /\
    PyDict.contains (active_sessions self) (py "0af3-") = true /\
    cleanup_old_sessions 0 5 self = Return 0 self /\
    cleanup_old_sessions (10 ^ 305) 5 init = Raise OverflowError init.
Proof.
  eexists. split; [reflexivity|]. split; [reflexivity|].
  split; vm_compute; reflexivity.
Qed.

(** C4 (as the code has it).  [list_sessions_for_user] returns the stored
    sessions of the given user, whatever their state, and leaves the store
    as it is; [list_sessions] of the client returns their summaries when the
    user is a non-empty string, and the summaries of the [IN_PROGRESS]
    sessions of all users when no user is given. *)
Theorem list_sessions_for_user_any_state (self : SessionManager)
  (user : str) :
  exists l la,
    list_sessions_for_user user self = Return l self /\
    (forall s, In s l <->
               In s (PyDict.values (active_sessions self)) /\
               user_pseudo_id s = Some user) /\
    (user <> [] ->
     Client.list_sessions (Some user) self
     = Return (map (Client.summary self) l) self) /\
    Client.list_sessions None self
    = Return (map (Client.summary self) la) self /\
    (forall s, In s la <->
               In s (PyDict.values (active_sessions self)) /\
               state s = IN_PROGRESS).
Proof.
  do 2 eexists. split; [reflexivity|]. split; [|split; [|split]].
  - intros s. rewrite filter_In. unfold user_is.
    destruct (user_pseudo_id s) as [u|].
    + rewrite str_eqb_eq.
      split; intros [H1 H2]; (split; [exact H1 | congruence]).
    + split; intros [_ H]; discriminate.
  - intros Hu. destruct user as [|c u]; [congruence | reflexivity].
  - reflexivity.
  - intros s. rewrite filter_In.
    destruct (state s); simpl; split; intros [H1 H2];
      (split; [exact H1 | congruence]).
Qed.

Lemma list_sessions_for_user_any_state_witness :
  Client.list_sessions (Some (py "u")) init = Return [] init.
Proof.
  destruct (list_sessions_for_user_any_state init (py "u"))
    as [l [la [E [_ [H _]]]]].
  injection E as <-. apply H. discriminate.
Defined.

(** C4, where the sentence of the spec fails: after a user's session is
    created and ended, listing that user's sessions returns the
    [COMPLETED] session. *)
Lemma list_sessions_for_user_lists_completed :
  exists self s sm,
    state_after [Create (py "0af3") 5 (Some (py "u")); End (py "0af3-") 10]
    = self /\
    list_sessions_for_user (py "u") self = Return [s] self /\
    state s = COMPLETED /\
    Client.list_sessions (Some (py "u")) self = Return [sm] self /\
    Client.sum_state sm = COMPLETED.
Proof.
  do 3 eexists. repeat split.
Qed.

(** ** The pattern *)




Section Direct.
Variable R : Type.




End Direct.













(** *** Case *)






Section MapInvariant.
Variable f : codepoint -> codepoint.



End MapInvariant.






(** *** Acceptance and rejection at the head of a title *)







(** ** Sorting and rebuilding a dictionary *)

Section DictOrder.
Variable V : Type.
Implicit Types (d : PyDict.t V) (k : str) (v : V).

Lemma insert_sorted_perm (kv : str * V) (l : list (str * V)) :
  Permutation (PyDict.insert_sorted kv l) (kv :: l).
Proof.
  induction l as [|kv' l IH]; simpl; [reflexivity|].
  destruct (str_leb (fst kv) (fst kv')); [reflexivity|].
  rewrite IH. apply perm_swap.
Qed.

Lemma sorted_perm (l : list (str * V)) : Permutation (PyDict.sorted l) l.
Proof.
  induction l as [|kv l IH]; simpl; [reflexivity|].
  rewrite insert_sorted_perm. apply perm_skip, IH.
Qed.

Lemma of_items_acc (l : list (str * V)) :
  forall acc : PyDict.t V,
    NoDup (PyDict.keys (acc ++ l)) ->
    fold_left (fun d kv => PyDict.set d (fst kv) (snd kv)) l acc = acc ++ l.
Proof.
  induction l as [|[k v] l IH]; intros acc Hn; simpl.
  - rewrite app_nil_r. reflexivity.
  - assert (Hk : ~ In k (PyDict.keys acc)).
    { unfold PyDict.keys in *. rewrite map_app in Hn. simpl in Hn.
      apply NoDup_remove_2 in Hn. rewrite in_app_iff in Hn. tauto. }
    rewrite (set_fresh acc k v Hk), IH; rewrite <- app_assoc;
      [reflexivity | exact Hn].
Qed.

Lemma of_items_NoDup (l : list (str * V)) :
  NoDup (PyDict.keys l) -> PyDict.of_items l = l.
Proof. intros H. apply (of_items_acc l []). exact H. Qed.

Lemma In_get d k v :
  NoDup (PyDict.keys d) -> In (k, v) d -> PyDict.get d k = Some v.
Proof.
  induction d as [|[k' v'] d IH]; simpl; [tauto|].
  intros Hn; inversion Hn as [|? ? Hk Hd]; subst.
  intros [[= -> ->]|Hin]; [rewrite str_eqb_refl; reflexivity|].
  destruct (str_eqb k' k) eqn:E; [|auto].
  apply str_eqb_eq in E; subst k'. exfalso. apply Hk.
  apply (in_map fst) in Hin. exact Hin.
Qed.

Lemma get_perm d d' k :
  Permutation d d' -> NoDup (PyDict.keys d) ->
  PyDict.get d' k = PyDict.get d k.
Proof.
  intros Hp Hn.
  assert (Hn' : NoDup (PyDict.keys d'))
    by (eapply Permutation_NoDup; [apply Permutation_map, Hp | exact Hn]).
  destruct (PyDict.get d k) as [v|] eqn:G.
  - apply In_get; [exact Hn'|].
    eapply Permutation_in; [exact Hp | apply get_In, G].
  - apply get_None. apply get_None in G. intros Hin. apply G.
    eapply Permutation_in; [apply Permutation_map; symmetry; exact Hp|].
    exact Hin.
Qed.

Lemma flat_map_perm (B : Type) (f : V -> list B) (l l' : list V) :
  Permutation l l' -> Permutation (flat_map f l) (flat_map f l').
Proof.
  induction 1 as [|x l l' _ IH|x y l|l l' l'' _ IH1 _ IH2]; simpl.
  - reflexivity.
  - apply Permutation_app_head, IH.
  - rewrite !app_assoc. apply Permutation_app_tail, Permutation_app_comm.
  - etransitivity; eassumption.
Qed.
End DictOrder.

(** ** The classifier *)

Import Classifier.

Lemma grouped_count_length (d : PyDict.t SowInfo) :
  grouped_count d = length (grouped_documents d).
Proof.
  unfold grouped_count, grouped_documents.
  induction (PyDict.values d) as [|g l IH]; simpl; [reflexivity|].
  rewrite length_app, IH. reflexivity.
Qed.

Lemma grouped_adjust (doc : Document) (d : PyDict.t SowInfo) (k : str) :
  In k (PyDict.keys d) ->
  Permutation (grouped_documents (PyDict.adjust (append_document doc) d k))
    (doc :: grouped_documents d).
Proof.
  unfold grouped_documents.
  induction d as [|[k' info] d IH]; simpl; [tauto|].
  destruct (str_eqb k' k) eqn:E; simpl.
  - intros _. rewrite <- app_assoc. simpl. symmetry.
    apply Permutation_middle.
  - apply str_eqb_neq in E. intros [H|H]; [contradiction|].
    rewrite (IH H). symmetry. apply Permutation_middle.
Qed.

Lemma grouped_set_fresh (d : PyDict.t SowInfo) (k : str) (info : SowInfo) :
  ~ In k (PyDict.keys d) -> documents info = [] ->
  grouped_documents (PyDict.set d k info) = grouped_documents d.
Proof.
  intros Hk Hd. rewrite set_fresh by exact Hk.
  unfold grouped_documents, PyDict.values.
  rewrite map_app, flat_map_app. simpl. rewrite Hd, !app_nil_r. reflexivity.
Qed.

(** The group of a key exists once the [if sow_key not in sows] is passed,
    and nothing else has changed. *)
Lemma ensure_group (d : PyDict.t SowInfo) (k : str) (info0 : SowInfo) :
  documents info0 = [] -> NoDup (PyDict.keys d) ->
  let d1 := if PyDict.contains d k then d else PyDict.set d k info0 in
  NoDup (PyDict.keys d1) /\ In k (PyDict.keys d1) /\
  grouped_documents d1 = grouped_documents d /\
  (forall k' info, PyDict.get d k' = Some info ->
                   PyDict.get d1 k' = Some info).
Proof.
  intros H0 Hn. destruct (PyDict.contains d k) eqn:E; cbv zeta.
  - apply contains_In in E. auto.
  - apply contains_false in E. split; [|split; [|split]].
    + rewrite keys_set.
      rewrite (proj2 (contains_false d k) E). apply NoDup_snoc; assumption.
    + rewrite keys_set. rewrite (proj2 (contains_false d k) E).
      apply in_or_app. right. left. reflexivity.
    + apply grouped_set_fresh; assumption.
    + intros k' info G. rewrite get_set_other; [exact G|].
      intros ->. apply E. apply get_In in G. apply (in_map fst) in G.
      exact G.
Qed.

Lemma classify_result_spec (d : PyDict.t SowInfo) (other : list Document)
  (r : SearchResult) (d' : PyDict.t SowInfo) (other' : list Document) :
  classify_result (d, other) r = (d', other') ->
  NoDup (PyDict.keys d) ->
  NoDup (PyDict.keys d') /\
  Permutation (grouped_documents d' ++ other')
    (condensed r :: grouped_documents d ++ other) /\
  placed d' other' r /\
  (forall r0, placed d other r0 -> placed d' other' r0).
Proof.
  unfold classify_result. intros Hstep Hn.
  destruct (sow_pattern_search (title r)) as [g|] eqn:S.
  - fold (sow_key g) in Hstep. cbv zeta in Hstep.
    set (info0 := {| sow_number := g; documents := [];
                     primary_title := title r |}) in Hstep.
    destruct (ensure_group d (sow_key g) info0 eq_refl Hn)
      as [Hn1 [Hin1 [Hg1 Hget1]]].
    set (d1 := if PyDict.contains d (sow_key g) then d
               else PyDict.set d (sow_key g) info0) in *.
    injection Hstep as <- <-.
    split; [rewrite keys_adjust; exact Hn1|]. split; [|split].
    + rewrite (grouped_adjust (condensed r) d1 (sow_key g) Hin1), Hg1.
      reflexivity.
    + unfold placed. rewrite S, get_adjust_same.
      apply contains_In in Hin1. unfold PyDict.contains in Hin1.
      destruct (PyDict.get d1 (sow_key g)) as [info1|]; [|discriminate].
      eexists. split; [reflexivity|]. simpl.
      apply in_or_app. right. left. reflexivity.
    + intros r0. unfold placed.
      destruct (sow_pattern_search (title r0)) as [g0|]; [|tauto].
      intros [info [G Hd]]. apply Hget1 in G.
      destruct (str_eqb (sow_key g0) (sow_key g)) eqn:E.
      * apply str_eqb_eq in E. rewrite E in *.
        rewrite get_adjust_same, G. eexists. split; [reflexivity|].
        simpl. apply in_or_app. left. exact Hd.
      * apply str_eqb_neq in E. rewrite get_adjust_other by exact E.
        exists info. auto.
  - injection Hstep as <- <-. split; [exact Hn|]. split; [|split].
    + rewrite app_assoc. rewrite <- Permutation_cons_append. reflexivity.
    + unfold placed. rewrite S. apply in_or_app. right. left. reflexivity.
    + intros r0. unfold placed.
      destruct (sow_pattern_search (title r0)); [tauto|].
      intros H. apply in_or_app. left. exact H.
Qed.

Lemma classify_fold (results : list SearchResult) :
  forall (d : PyDict.t SowInfo) (other : list Document)
         (d' : PyDict.t SowInfo) (other' : list Document),
    fold_left classify_result results (d, other) = (d', other') ->
    NoDup (PyDict.keys d) ->
    NoDup (PyDict.keys d') /\
    Permutation (grouped_documents d' ++ other')
      (map condensed results ++ grouped_documents d ++ other) /\
    (forall r, In r results -> placed d' other' r) /\
    (forall r0, placed d other r0 -> placed d' other' r0).
Proof.
  induction results as [|r results IH]; intros d other d' other' Hf Hn.
  - injection Hf as <- <-. simpl.
    split; [exact Hn|]. split; [reflexivity|]. split; [intros r []|auto].
  - cbn [fold_left] in Hf.
    destruct (classify_result (d, other) r) as [d1 other1] eqn:Hstep.
    destruct (classify_result_spec d other r Hstep Hn)
      as [Hn1 [Hp1 [Hr1 Hm1]]].
    destruct (IH d1 other1 d' other' Hf Hn1) as [Hn' [Hp' [Hr' Hm']]].
    split; [exact Hn'|]. split; [|split].
    + rewrite Hp', Hp1. simpl. symmetry. apply Permutation_middle.
    + intros r0 [<-|Hin]; auto.
    + auto.
Qed.

(** The analysis in terms of the state of the loop at its end. *)
Lemma extract_sows_from_results_spec (results : list SearchResult) :
  exists (d : PyDict.t SowInfo) (other : list Document),
    fold_left classify_result results (PyDict.empty SowInfo, []) = (d, other)
    /\ NoDup (PyDict.keys d)
    /\ extract_sows_from_results results
       = {| total_sows := length d;
            sows := PyDict.sorted d;
            other_documents := other;
            total_documents := length results |}
    /\ Permutation (PyDict.sorted d) d
    /\ Permutation (grouped_documents d ++ other) (map condensed results)
    /\ (forall r, In r results -> placed d other r).
Proof.
  unfold extract_sows_from_results.
  destruct (fold_left classify_result results (PyDict.empty SowInfo, []))
    as [d other] eqn:Hf.
  destruct (classify_fold results (PyDict.empty SowInfo) [] Hf
              (NoDup_nil _)) as [Hn [Hp [Hr _]]].
  exists d, other. split; [reflexivity|]. split; [exact Hn|].
  pose proof (sorted_perm d) as Hs. unfold PyDict.items.
  rewrite of_items_NoDup.
  - split; [reflexivity|]. split; [exact Hs|]. split; [|exact Hr].
    simpl in Hp. rewrite app_nil_r in Hp. exact Hp.
  - eapply Permutation_NoDup; [|exact Hn].
    apply Permutation_map. symmetry. exact Hs.
Qed.

Lemma firstn_app_exact (A : Type) (l1 l2 : list A) :
  firstn (length l1) (l1 ++ l2) = l1.
Proof. induction l1 as [|x l1 IH]; simpl; congruence. Qed.

Lemma content_preview_long (c : str) :
  200 < length c ->
  content_preview c = firstn 200 c ++ ellipsis /\
  length (content_preview c) = 203 /\
  firstn 200 (content_preview c) = firstn 200 c.
Proof.
  intros H. unfold content_preview.
  rewrite (proj2 (Nat.ltb_lt 200 (length c)) H).
  assert (Hl : length (firstn 200 c) = 200) by (apply firstn_length_le; lia).
  split; [reflexivity|]. split.
  - rewrite length_app, Hl. reflexivity.
  - rewrite <- Hl at 1. apply firstn_app_exact.
Qed.

Lemma content_preview_short (c : str) :
  length c <= 200 -> content_preview c = c.
Proof.
  intros H. unfold content_preview.
  rewrite (proj2 (Nat.ltb_ge 200 (length c)) H). reflexivity.
Qed.

(** The example of the spec: four titles, two groups, one other document. *)
Example extract_sows_of_four_titles :
  let result t :=
    {| title := py t; content := py "text"; uri := None; score := None |} in
  let a := extract_sows_from_results
             [result "CHR_SOW#1 Intro"%string;
              result "SOW#1 Appendix"%string;
              result "Random Doc"%string; result "SOW#2"%string] in
  total_sows a = 2 /\
  map (fun kv => (fst kv, primary_title (snd kv),
                  map doc_title (documents (snd kv)))) (sows a)
  = [(py "SOW#1", py "CHR_SOW#1 Intro",
      [py "CHR_SOW#1 Intro"; py "SOW#1 Appendix"]);
     (py "SOW#2", py "SOW#2", [py "SOW#2"])] /\
  map doc_title (other_documents a) = [py "Random Doc"] /\
  total_documents a = 4.
Proof. repeat split. Qed.

Lemma extract_sows_documents_perm (results : list SearchResult) :
  let a := extract_sows_from_results results in
  Permutation (grouped_documents (sows a) ++ other_documents a)
    (map condensed results) /\
  NoDup (PyDict.keys (sows a)).
Proof.
  destruct (extract_sows_from_results_spec results)
    as [d [other [_ [Hn [-> [Hs [Hp _]]]]]]].
  cbv zeta. cbn [sows other_documents]. split.
  - rewrite <- Hp. apply Permutation_app_tail.
    apply flat_map_perm, Permutation_map, Hs.
  - eapply Permutation_NoDup; [|exact Hn].
    apply Permutation_map. symmetry. exact Hs.
Qed.

(** C1.  The documents of all groups together with the other documents are
    the condensed records of the input results, each as often as in the
    input: no result is dropped and none is put in two places.  So the sum
    of the sizes of the groups plus the number of other documents is the
    returned total, which is the number of input results. *)
Theorem extract_sows_partitions_results (results : list SearchResult) :
  let a := extract_sows_from_results results in
  Permutation (grouped_documents (sows a) ++ other_documents a)
    (map condensed results) /\
  grouped_count (sows a) + length (other_documents a) = total_documents a /\
  total_documents a = length results /\
  NoDup (PyDict.keys (sows a)).
Proof.
  intros a. destruct (extract_sows_documents_perm results) as [Hp Hn].
  fold a in Hp, Hn.
  assert (Ht : total_documents a = length results).
  { subst a. unfold extract_sows_from_results.
    destruct (fold_left classify_result results _). reflexivity. }
  split; [exact Hp|]. split; [|split; [exact Ht | exact Hn]].
  rewrite grouped_count_length, <- length_app, Ht.
  rewrite (Permutation_length Hp). apply length_map.
Qed.

(** C5 (as the code has it).  The condensed record of every input result is
    in the output; its preview is the content itself when the content has at
    most 200 characters, and otherwise the first 200 characters of the
    content followed by the three-character ellipsis: 203 characters, of
    which the first 200 are a prefix of the content.  Every record of the
    output is the condensed record of an input result. *)
Theorem content_preview_truncates (results : list SearchResult)
  (r : SearchResult) :
  In r results ->
  let a := extract_sows_from_results results in
  In (condensed r) (grouped_documents (sows a) ++ other_documents a) /\
  doc_content (condensed r) = content_preview (content r) /\
  (200 < length (content r) ->
   content_preview (content r) = firstn 200 (content r) ++ py "..." /\
   length (content_preview (content r)) = 203 /\
   prefixb (firstn 200 (content_preview (content r))) (content r) = true) /\
  (length (content r) <= 200 -> content_preview (content r) = content r) /\
  (forall d, In d (grouped_documents (sows a) ++ other_documents a) ->
             exists r', In r' results /\ d = condensed r').
Proof.
  intros Hin a.
  destruct (extract_sows_documents_perm results) as [Hp _].
  fold a in Hp. split; [|split; [reflexivity|split; [|split]]].
  - eapply Permutation_in; [symmetry; exact Hp|]. apply in_map, Hin.
  - intros Hlong.
    destruct (content_preview_long (content r) Hlong) as [H1 [H2 H3]].
    split; [exact H1|]. split; [exact H2|].
    rewrite H3. apply prefixb_spec. exists (skipn 200 (content r)).
    symmetry. apply firstn_skipn.
  - apply content_preview_short.
  - intros d Hd. apply (Permutation_in _ Hp) in Hd.
    apply in_map_iff in Hd as [r' [<- Hr']]. exists r'. auto.
Qed.

Lemma content_preview_truncates_witness :
  let r := {| title := py "SOW#2"; content := repeat 97%N 250;
              uri := None; score := None |} in
  In (condensed r)
     (grouped_documents (sows (extract_sows_from_results [r]))
      ++ other_documents (extract_sows_from_results [r])) /\
  length (content_preview (content r)) = 203.
Proof.
  intros r.
  destruct (content_preview_truncates [r] r (or_introl eq_refl))
    as [Hin [_ [Hlong _]]].
  split; [exact Hin|]. apply Hlong.
  subst r. cbn [content]. rewrite repeat_length. lia.
Defined.

(** C5, where the sentence of the spec fails: for a content of 201
    characters the preview has 203 characters, so it is not a prefix of the
    content. *)
Lemma content_preview_is_not_a_prefix :
  let r := {| title := py "Random Doc"; content := repeat 97%N 201;
              uri := None; score := None |} in
  exists d,
    other_documents (extract_sows_from_results [r]) = [d] /\
    200 < length (content r) /\
    length (doc_content d) = 203 /\
    ~ (exists t, content r = doc_content d ++ t).
Proof.
  intros r. eexists. split; [reflexivity|].
  split; [subst r; cbn [content]; rewrite repeat_length; lia|].
  split; [reflexivity|].
  rewrite <- prefixb_spec. vm_compute. discriminate.
Qed.






(* ===================================================================== *)
(** * Further properties of the session manager *)
(* ===================================================================== *)

Section DictMembers.
Variable V : Type.
Implicit Types (d : PyDict.t V) (k : str) (v : V).

Lemma get_Some_iff d k v :
  NoDup (PyDict.keys d) -> (PyDict.get d k = Some v <-> In (k, v) d).
Proof.
  intros Hn. split; [apply get_In | apply In_get, Hn].
Qed.

Lemma In_set d k0 v0 k v :
  NoDup (PyDict.keys d) ->
  In (k, v) (PyDict.set d k0 v0) ->
  (k = k0 /\ v = v0) \/ (k <> k0 /\ In (k, v) d).
Proof.
  induction d as [|[k' v'] d IH]; simpl.
  - intros _ [[= <- <-]|[]]. left. auto.
  - intros Hn. inversion Hn as [|? ? Hk Hd]; subst.
    destruct (str_eqb k' k0) eqn:E.
    + apply str_eqb_eq in E; subst k'. intros [[= <- <-]|Hin]; [left; auto|].
      right. split; [|right; exact Hin].
      intros ->. apply Hk. apply (in_map fst) in Hin. exact Hin.
    + apply str_eqb_neq in E. intros [[= <- <-]|Hin].
      * right. split; [exact E | left; reflexivity].
      * destruct (IH Hd Hin) as [H|[H1 H2]]; [left; exact H|].
        right. split; [exact H1 | right; exact H2].
Qed.

Lemma In_adjust (f : V -> V) d k0 k v :
  NoDup (PyDict.keys d) ->
  In (k, v) (PyDict.adjust f d k0) ->
  (k = k0 /\ exists v0, In (k0, v0) d /\ v = f v0) \/
  (k <> k0 /\ In (k, v) d).
Proof.
  induction d as [|[k' v'] d IH]; simpl; [tauto|].
  intros Hn. inversion Hn as [|? ? Hk Hd]; subst.
  destruct (str_eqb k' k0) eqn:E.
  - apply str_eqb_eq in E; subst k'. intros [[= <- <-]|Hin].
    + left. split; [reflexivity|]. exists v'. auto.
    + right. split; [|right; exact Hin].
      intros ->. apply Hk. apply (in_map fst) in Hin. exact Hin.
  - apply str_eqb_neq in E. intros [[= <- <-]|Hin].
    + right. split; [exact E | left; reflexivity].
    + destruct (IH Hd Hin) as [[H1 [v0 [H2 H3]]]|[H1 H2]].
      * left. split; [exact H1|]. exists v0. auto.
      * right. split; [exact H1 | right; exact H2].
Qed.

Lemma get_without (l : list str) d k :
  ~ In k l -> PyDict.get (without_keys l d) k = PyDict.get d k.
Proof.
  intros Hk. induction d as [|[k' v'] d IH]; simpl; [reflexivity|].
  destruct (mem_str k' l) eqn:M; simpl.
  - destruct (str_eqb k' k) eqn:E; [|exact IH].
    apply str_eqb_eq in E; subst k'. apply mem_str_In in M. contradiction.
  - rewrite IH. reflexivity.
Qed.

Lemma get_without_removed (l : list str) d k :
  In k l -> PyDict.get (without_keys l d) k = None.
Proof.
  intros Hk. apply get_None. unfold PyDict.keys, without_keys.
  intros Hin. apply in_map_iff in Hin as [[k' v'] [E [_ Hp]%filter_In]].
  simpl in E, Hp; subst k'. apply negb_true_iff in Hp.
  apply mem_str_In in Hk. congruence.
Qed.
End DictMembers.

(** *** Every stored session is well formed *)

Lemma sessions_ok_iff (self : SessionManager) :
  sessions_ok self = true <->
  store_ok self = true /\
  (forall kv, In kv (active_sessions self) -> session_ok kv = true) /\
  (forall kv, In kv (active_sessions self) -> turns_ok self kv = true).
Proof.
  unfold sessions_ok. rewrite !andb_true_iff, !forallb_forall. tauto.
Qed.

Lemma turns_ok_ext (self self' : SessionManager)
  (kv : str * SessionInfo) :
  PyDict.get (session_history self') (fst kv)
  = PyDict.get (session_history self) (fst kv) ->
  turns_ok self' kv = turns_ok self kv.
Proof. unfold turns_ok. intros ->. reflexivity. Qed.

Lemma create_session_sessions_ok (u : str) (now : datetime)
  (user : option str) (self : SessionManager) :
  sessions_ok self = true ->
  exists self',
    create_session u now user self = Return (u ++ [dash]) self' /\
    sessions_ok self' = true.
Proof.
  intros [Hok [Hs Ht]]%sessions_ok_iff.
  destruct (create_session_ok u now user self Hok) as [self' [E Hok']].
  exists self'. split; [exact E|].
  pose proof Hok as [Hn _]%store_ok_iff.
  cbv [create_session bind get_self put_self ret] in E.
  injection E as <-. apply sessions_ok_iff.
  split; [exact Hok'|]. cbn [active_sessions session_history].
  split; intros [k s] Hin; apply In_set in Hin; try exact Hn;
    destruct Hin as [[-> ->]|[Hk Hin]].
  - unfold session_ok. simpl.
    rewrite str_eqb_refl, endswith_dash_app. reflexivity.
  - apply Hs, Hin.
  - unfold turns_ok. simpl. rewrite get_set_same. reflexivity.
  - rewrite <- (Ht _ Hin). apply turns_ok_ext. simpl.
    apply get_set_other. exact Hk.
Qed.

Lemma update_session_sessions_ok (sid q qid a : str) (now : datetime)
  (self : SessionManager) :
  sessions_ok self = true ->
  exists self',
    update_session sid q qid a now self = Return tt self' /\
    sessions_ok self' = true.
Proof.
  intros [Hok [Hs Ht]]%sessions_ok_iff.
  destruct (update_session_ok sid q qid a now self Hok) as [self' [E Hok']].
  exists self'. split; [exact E|].
  pose proof Hok as [Hn _]%store_ok_iff.
  unfold update_session, bind, get_self in E.
  destruct (PyDict.contains (active_sessions self) sid);
    [|injection E as <-; apply sessions_ok_iff; auto].
  destruct (PyDict.get (session_history self) sid) as [h|]; [|discriminate].
  injection E as <-. apply sessions_ok_iff.
  split; [exact Hok'|]. cbn [active_sessions session_history].
  split; intros [k s] Hin; apply In_adjust in Hin; try exact Hn;
    destruct Hin as [[-> [s0 [Hin ->]]]|[Hk Hin]].
  - exact (Hs _ Hin).
  - apply Hs, Hin.
  - unfold turns_ok. simpl. apply str_eqb_refl.
  - rewrite <- (Ht _ Hin). apply turns_ok_ext. simpl.
    apply get_set_other. exact Hk.
Qed.

Lemma end_session_sessions_ok (sid : str) (now : datetime)
  (self : SessionManager) :
  sessions_ok self = true ->
  exists self',
    end_session sid now self = Return tt self' /\
    sessions_ok self' = true.
Proof.
  intros [Hok [Hs Ht]]%sessions_ok_iff.
  destruct (end_session_ok sid now self Hok) as [self' [E Hok']].
  exists self'. split; [exact E|].
  pose proof Hok as [Hn _]%store_ok_iff.
  unfold end_session, bind, get_self in E.
  destruct (PyDict.contains (active_sessions self) sid);
    [|injection E as <-; apply sessions_ok_iff; auto].
  injection E as <-. apply sessions_ok_iff.
  split; [exact Hok'|]. cbn [active_sessions session_history].
  split; intros [k s] Hin; apply In_adjust in Hin; try exact Hn;
    destruct Hin as [[-> [s0 [Hin ->]]]|[Hk Hin]].
  - pose proof (Hs _ Hin) as H. unfold session_ok in *. simpl in *.
    apply andb_true_iff in H as [H _]. rewrite H. reflexivity.
  - apply Hs, Hin.
  - exact (Ht _ Hin).
  - exact (Ht _ Hin).
Qed.

Lemma cleanup_old_sessions_sessions_ok (age : Z) (now : datetime)
  (self : SessionManager) :
  sessions_ok self = true ->
  sessions_ok (store_after (cleanup_old_sessions age now self)) = true.
Proof.
  intros Hall. pose proof Hall as [Hok [Hs Ht]]%sessions_ok_iff.
  destruct (PyFloat.is_inf (PyFloat.of_int (age * 3600))) eqn:Hfin.
  - rewrite (cleanup_old_sessions_overflow age now self Hfin). exact Hall.
  - pose proof Hok as [Hn _]%store_ok_iff.
    rewrite (cleanup_old_sessions_spec age now self Hok Hfin).
    cbv zeta. cbn [store_after].
    set (cutoff := PyFloat.sub (PyFloat.timestamp now)
                     (PyFloat.of_int (age * 3600))).
    apply sessions_ok_iff. split; [|cbn [active_sessions session_history]].
    + rewrite <- without_swept by exact Hn. apply store_ok_without, Hok.
    + split; intros kv Hin.
      * apply Hs. unfold kept in Hin. apply filter_In in Hin. tauto.
      * assert (Hin' : In kv (active_sessions self))
          by (unfold kept in Hin; apply filter_In in Hin; tauto).
        rewrite <- (Ht _ Hin'). apply turns_ok_ext. simpl.
        apply get_without. rewrite <- without_swept in Hin by exact Hn.
        unfold without_keys in Hin. apply filter_In in Hin as [_ Hp].
        apply negb_true_iff in Hp. rewrite <- mem_str_In. congruence.
Qed.

Lemma perform_sessions_ok (c : call) (self : SessionManager) :
  sessions_ok self = true ->
  sessions_ok (store_after (perform c self)) = true.
Proof.
  intros Hok. destruct c as [u now user|sid q qid a now|sid now|age now];
    cbn [perform].
  - destruct (create_session_sessions_ok u now user self Hok)
      as [self1 [E H]].
    rewrite (@bind_Return _ _ _ _ _ _ _ E). exact H.
  - destruct (update_session_sessions_ok sid q qid a now self Hok)
      as [self1 [E H]].
    rewrite E. exact H.
  - destruct (end_session_sessions_ok sid now self Hok) as [self1 [E H]].
    rewrite E. exact H.
  - pose proof (cleanup_old_sessions_sessions_ok age now self Hok) as H.
    destruct (cleanup_old_sessions age now self) as [n self1|e self1] eqn:E.
    + rewrite (@bind_Return _ _ _ _ _ _ _ E). exact H.
    + rewrite (@bind_Raise _ _ _ _ _ _ _ E). exact H.
Qed.

Lemma run_sessions_ok (calls : list call) :
  forall self : SessionManager,
    sessions_ok self = true -> sessions_ok (snd (run calls self)) = true.
Proof.
  induction calls as [|c calls IH]; intros self Hok; [exact Hok|].
  cbn [run]. pose proof (IH _ (perform_sessions_ok c self Hok)) as H.
  destruct (run calls (store_after (perform c self))) as [es s'].
  exact H.
Qed.

Lemma state_after_sessions_ok (calls : list call) :
  exists self, state_after calls = self /\ sessions_ok self = true.
Proof.
  exists (state_after calls). split; [reflexivity|].
  apply run_sessions_ok. reflexivity.
Qed.

Lemma session_ok_fields (k : str) (s : SessionInfo) :
  session_ok (k, s) = true ->
  session_id s = k /\ endswith_dash k = true /\
  start_time s <> None /\
  (state s = COMPLETED <-> end_time s <> None).
Proof.
  unfold session_ok. simpl. rewrite !andb_true_iff, str_eqb_eq.
  intros [[[H1 H2] H3] H4]. split; [exact H1|]. split; [exact H2|].
  split; [destruct (start_time s); congruence|].
  destruct (state s), (end_time s); split; congruence.
Qed.

Lemma stored_turns (self : SessionManager) (k : str) (s : SessionInfo) :
  sessions_ok self = true ->
  In (k, s) (active_sessions self) ->
  exists h,
    PyDict.get (session_history self) k = Some h /\
    Conversation.turns_list self s = h /\
    Client.turns_len self s = length h.
Proof.
  intros [Hok [_ Ht]]%sessions_ok_iff Hin.
  assert (Hc : PyDict.contains (session_history self) k = true).
  { rewrite (store_ok_contains self k Hok). apply contains_In.
    apply (in_map fst) in Hin. exact Hin. }
  unfold PyDict.contains in Hc.
  destruct (PyDict.get (session_history self) k) as [h|] eqn:G;
    [|discriminate].
  exists h. split; [reflexivity|].
  pose proof (Ht _ Hin) as H.
  unfold turns_ok, Conversation.turns_list, Client.turns_len in *.
  simpl in H. destruct (turns s) as [|k'].
  - rewrite G in H. destruct h; [auto | discriminate].
  - apply str_eqb_eq in H; subst k'. rewrite G. auto.
Qed.

(** X1.  After any sequence of calls on a new manager, every stored session
    is stored under its own identifier, that identifier ends with the dash,
    the session has a start time, it has an end time exactly when its state
    is [COMPLETED], and [get_session] on the identifier returns it. *)
Theorem stored_sessions_are_well_formed (calls : list call) :
  exists self,
    state_after calls = self /\
    forall k s,
      In (k, s) (active_sessions self) ->
      session_id s = k /\ endswith_dash k = true /\
      start_time s <> None /\
      (state s = COMPLETED <-> end_time s <> None) /\
      get_session k self = Return (Some s) self.
Proof.
  destruct (state_after_sessions_ok calls) as [self [E Hok]].
  exists self. split; [exact E|]. intros k s Hin.
  pose proof Hok as [Hst [Hs _]]%sessions_ok_iff.
  destruct (session_ok_fields k s (Hs _ Hin)) as [H1 [H2 [H3 H4]]].
  repeat (split; [assumption|]).
  unfold get_session, bind, get_self, ret.
  rewrite (In_get (active_sessions self) k s); [reflexivity| |exact Hin].
  apply store_ok_iff, Hst.
Qed.

(** X2.  After any sequence of calls on a new manager, the turns that
    [get_session_info] reports for an identifier are the list that
    [get_session_history] returns for it, and the number of turns in every
    summary of [list_sessions] is the length of that list. *)
Theorem reported_turns_are_the_history (calls : list call) :
  exists self,
    state_after calls = self /\
    (forall sid info,
       Conversation.get_session_info sid self = Return (Some info) self ->
       Conversation.info_session_id info = sid /\
       get_session_history sid self
       = Return (Conversation.info_turns info) self) /\
    (forall user l sm,
       Client.list_sessions user self = Return l self ->
       In sm l ->
       exists h,
         get_session_history (Client.sum_session_id sm) self
         = Return h self /\
         Client.sum_turns sm = length h).
Proof.
  destruct (state_after_sessions_ok calls) as [self [E Hok]].
  exists self. split; [exact E|].
  pose proof Hok as [Hst [Hs _]]%sessions_ok_iff. split.
  - intros sid info.
    unfold Conversation.get_session_info, get_session, bind, get_self, ret.
    destruct (PyDict.get (active_sessions self) sid) as [s|] eqn:G;
      [|discriminate].
    intros [= <-]. apply get_In in G. simpl.
    destruct (session_ok_fields sid s (Hs _ G)) as [H1 _].
    destruct (stored_turns self sid s Hok G) as [h [Gh [Hl _]]].
    split; [exact H1|]. unfold get_session_history, bind, get_self, ret.
    rewrite Gh, Hl. reflexivity.
  - intros user l sm Hl Hin.
    assert (Hsm : exists s, In s (PyDict.values (active_sessions self)) /\
                            sm = Client.summary self s).
    { unfold Client.list_sessions, list_sessions_for_user,
        list_active_sessions, bind, get_self, ret in Hl.
      destruct user as [[|c u]|]; injection Hl as <-;
        apply in_map_iff in Hin as [s [<- [Hin _]%filter_In]];
        exists s; auto. }
    destruct Hsm as [s [Hv ->]]. unfold PyDict.values in Hv.
    apply in_map_iff in Hv as [[k s'] [Hk Hks]]. simpl in Hk; subst s'.
    destruct (session_ok_fields k s (Hs _ Hks)) as [H1 _].
    destruct (stored_turns self k s Hok Hks) as [h [Gh [_ Hlen]]].
    exists h. simpl. rewrite H1.
    unfold get_session_history, bind, get_self, ret. rewrite Gh. auto.
Qed.


(** X4.  [create_session] returns the given hexadecimal name followed by
    the dash, which [is_new_session] accepts.  Afterwards that identifier
    holds a new session ([IN_PROGRESS], the given user, started now, not
    ended) with an empty history, also when the identifier was already
    stored, whose session and history are then replaced; every other
    identifier holds what it held, and a new identifier comes last in the
    order of the dictionary. *)
Theorem create_session_stores_a_new_session (u : str) (now : datetime)
  (user : option str) (self : SessionManager) :
  exists self',
    create_session u now user self = Return (u ++ [dash]) self' /\
    is_new_session (u ++ [dash]) self' = Return true self' /\
    get_session (u ++ [dash]) self'
    = Return (Some {| session_id := u ++ [dash];
                      user_pseudo_id := user;
                      start_time := Some now;
                      end_time := None;
                      state := IN_PROGRESS;
                      turns := TurnsInitial |}) self' /\
    get_session_history (u ++ [dash]) self' = Return [] self' /\
    (forall k, k <> u ++ [dash] ->
       value_of (get_session k self') = value_of (get_session k self) /\
       value_of (get_session_history k self')
       = value_of (get_session_history k self)) /\
    PyDict.keys (active_sessions self')
    = (if PyDict.contains (active_sessions self) (u ++ [dash])
       then PyDict.keys (active_sessions self)
       else PyDict.keys (active_sessions self) ++ [u ++ [dash]]).
Proof.
  eexists. split;
    [cbv [create_session bind get_self put_self ret]; reflexivity|].
  unfold is_new_session, get_session, get_session_history, bind, get_self,
    ret. cbn [active_sessions session_history value_of].
  rewrite endswith_dash_app, !get_set_same.
  repeat (split; [reflexivity|]). split.
  - intros k Hk. rewrite !get_set_other by exact Hk. auto.
  - apply keys_set.
Qed.

Lemma active_after_end (now : datetime) (sid : str)
  (d : PyDict.t SessionInfo) :
  NoDup (PyDict.keys d) ->
  (forall kv, In kv d -> session_id (snd kv) = fst kv) ->
  filter (fun s => session_state_eqb (state s) IN_PROGRESS)
    (PyDict.values (PyDict.adjust (set_ended now) d sid))
  = filter (fun s => negb (str_eqb (session_id s) sid))
      (filter (fun s => session_state_eqb (state s) IN_PROGRESS)
         (PyDict.values d)).
Proof.
  induction d as [|[k s] d IH]; intros Hn Hid; [reflexivity|].
  inversion Hn as [|? ? Hk Hd]; subst.
  assert (Hs : session_id s = k) by (apply (Hid (k, s)); left; reflexivity).
  assert (Hid' : forall kv, In kv d -> session_id (snd kv) = fst kv)
    by (intros kv H; apply Hid; right; exact H).
  cbn [PyDict.adjust]. destruct (str_eqb k sid) eqn:E.
  - apply str_eqb_eq in E; subst sid.
    cbn [PyDict.values map snd filter set_ended state session_state_eqb].
    transitivity (filter (fun s0 => session_state_eqb (state s0) IN_PROGRESS)
                    (PyDict.values d)); [reflexivity|].
    assert (Hrest : filter (fun s0 => negb (str_eqb (session_id s0) k))
                      (filter (fun s0 =>
                                 session_state_eqb (state s0) IN_PROGRESS)
                         (PyDict.values d))
                    = filter (fun s0 =>
                                session_state_eqb (state s0) IN_PROGRESS)
                        (PyDict.values d)).
    { apply filter_all_true. intros s0 [Hin _]%filter_In.
      unfold PyDict.values in Hin.
      apply in_map_iff in Hin as [[k0 s1] [Hs1 Hin]]. simpl in Hs1; subst s1.
      apply negb_true_iff, str_eqb_neq.
      pose proof (Hid' _ Hin) as H0. simpl in H0. rewrite H0.
      intros ->. apply Hk. apply (in_map fst) in Hin. exact Hin. }
    destruct (session_state_eqb (state s) IN_PROGRESS); simpl;
      [rewrite Hs, str_eqb_refl; simpl|]; symmetry; exact Hrest.
  - cbn [PyDict.values map snd filter].
    fold (PyDict.values (PyDict.adjust (set_ended now) d sid)).
    fold (PyDict.values d). rewrite (IH Hd Hid').
    destruct (session_state_eqb (state s) IN_PROGRESS); [|reflexivity].
    cbn [filter]. rewrite Hs, E. reflexivity.
Qed.

(** X5.  On a store whose sessions are well formed, [end_session] on a
    stored identifier takes exactly the session of that identifier out of
    what [list_active_sessions] returns; the others stay, in their order. *)
Theorem end_session_unlists_the_session (self : SessionManager)
  (sid : str) (now : datetime) :
  sessions_ok self = true ->
  PyDict.contains (active_sessions self) sid = true ->
  exists self' l l',
    end_session sid now self = Return tt self' /\
    list_active_sessions self = Return l self /\
    list_active_sessions self' = Return l' self' /\
    l' = filter (fun s => negb (str_eqb (session_id s) sid)) l /\
    (forall s, In s l' -> session_id s <> sid).
Proof.
  intros [Hok [Hs _]]%sessions_ok_iff Hin.
  pose proof Hok as [Hn _]%store_ok_iff.
  do 3 eexists.
  split; [unfold end_session, bind, get_self; rewrite Hin; reflexivity|].
  unfold list_active_sessions, bind, get_self, ret.
  cbn [active_sessions].
  split; [reflexivity|]. split; [reflexivity|].
  assert (Hid : forall kv, In kv (active_sessions self) ->
                           session_id (snd kv) = fst kv).
  { intros [k s] H. apply (session_ok_fields k s (Hs _ H)). }
  rewrite (active_after_end now sid (active_sessions self) Hn Hid).
  split; [reflexivity|].
  intros s [_ H]%filter_In. apply negb_true_iff, str_eqb_neq in H. exact H.
Qed.

Lemma end_session_unlists_the_session_witness :
  exists self' l',
    end_session (py "0af3-") 10
      {| active_sessions :=
           [(py "0af3-",
             {| session_id := py "0af3-"; user_pseudo_id := None;
                start_time := Some 5%Z; end_time := None;
                state := IN_PROGRESS; turns := TurnsInitial |})];
         session_history := [(py "0af3-", [])] |}
    = Return tt self' /\
    list_active_sessions self' = Return l' self' /\
    (forall s, In s l' -> session_id s <> py "0af3-").
Proof.
  destruct (end_session_unlists_the_session
              {| active_sessions :=
                   [(py "0af3-",
                     {| session_id := py "0af3-"; user_pseudo_id := None;
                        start_time := Some 5%Z; end_time := None;
                        state := IN_PROGRESS; turns := TurnsInitial |})];
                 session_history := [(py "0af3-", [])] |}
              (py "0af3-") 10 eq_refl eq_refl)
    as [self' [l [l' [E [_ [El' [_ H]]]]]]].
  exists self', l'. auto.
Defined.

Lemma get_kept (cutoff : PyFloat.float) (d : PyDict.t SessionInfo)
  (k : str) :
  NoDup (PyDict.keys d) ->
  PyDict.get (kept cutoff d) k
  = match PyDict.get d k with
    | Some s => if is_old cutoff s then None else Some s
    | None => None
    end.
Proof.
  intros Hn.
  assert (Hn' : NoDup (PyDict.keys (kept cutoff d)))
    by (apply keys_filter_NoDup, Hn).
  destruct (PyDict.get d k) as [s|] eqn:G.
  - apply get_In in G. destruct (is_old cutoff s) eqn:O.
    + apply get_None. intros Hin. unfold PyDict.keys in Hin.
      apply in_map_iff in Hin as [[k' s'] [Hk [Hin Hp]%filter_In]].
      simpl in Hk, Hp; subst k'.
      rewrite (NoDup_keys_functional d k s' s Hn Hin G) in Hp.
      rewrite O in Hp. discriminate.
    + apply In_get; [exact Hn'|]. apply filter_In. simpl. rewrite O. auto.
  - apply get_None. apply get_None in G. intros Hin. apply G.
    unfold PyDict.keys in *.
    apply in_map_iff in Hin as [kv [Hk [Hin _]%filter_In]].
    rewrite <- Hk. apply in_map, Hin.
Qed.

(** X6.  On a store that satisfies the invariant, a sweep whose maximal
    age in seconds does not fit a float raises [OverflowError] and leaves
    the store as it is.  Otherwise it returns normally and keeps the
    invariant; the cutoff is the float [now.timestamp()] minus the age in
    seconds as a float; a session whose start time stamp is strictly less
    than the cutoff, as floats, is gone with its history; every other
    session and its history are as before; an identifier that was not
    stored is still not stored; and the number returned is the number of
    sessions that are gone. *)
Theorem cleanup_old_sessions_removes_old_only (self : SessionManager)
  (age : Z) (now : datetime) :
  store_ok self = true ->
  (PyFloat.is_inf (PyFloat.of_int (age * 3600)) = true ->
   cleanup_old_sessions age now self = Raise OverflowError self) /\
  (PyFloat.is_inf (PyFloat.of_int (age * 3600)) = false ->
   exists n self',
     cleanup_old_sessions age now self = Return n self' /\
     store_ok self' = true /\
     n + length (active_sessions self') = length (active_sessions self) /\
     forall k,
       match PyDict.get (active_sessions self) k with
       | Some s =>
           (forall t,
              start_time s = Some t ->
              PyFloat.ltb (PyFloat.timestamp t)
                (PyFloat.sub (PyFloat.timestamp now)
                   (PyFloat.of_int (age * 3600))) = true ->
              get_session k self' = Return None self' /\
              get_session_history k self' = Return [] self') /\
           (~ (exists t,
                 start_time s = Some t /\
                 PyFloat.ltb (PyFloat.timestamp t)
                   (PyFloat.sub (PyFloat.timestamp now)
                      (PyFloat.of_int (age * 3600))) = true) ->
            get_session k self' = Return (Some s) self' /\
            value_of (get_session_history k self')
            = value_of (get_session_history k self))
       | None => get_session k self' = Return None self'
       end).
Proof.
  intros Hok. split; [apply cleanup_old_sessions_overflow|]. intros Hfin.
  pose proof Hok as [Hn He]%store_ok_iff.
  pose proof (cleanup_old_sessions_spec age now self Hok Hfin) as E.
  cbv zeta in E.
  set (cutoff := PyFloat.sub (PyFloat.timestamp now)
                   (PyFloat.of_int (age * 3600))) in *.
  do 2 eexists. split; [exact E|]. cbn [active_sessions session_history].
  split; [|split].
  - rewrite <- without_swept by exact Hn. apply store_ok_without, Hok.
  - unfold swept, kept. rewrite length_map. apply filter_partition_length.
  - intros k. unfold get_session, get_session_history, bind, get_self, ret.
    cbn [active_sessions session_history value_of].
    rewrite get_kept by exact Hn.
    destruct (PyDict.get (active_sessions self) k) as [s|] eqn:G;
      [|reflexivity].
    apply get_In in G. split.
    + intros t Ht Hlt.
      assert (O : is_old cutoff s = true)
        by (apply is_old_iff; exists t; auto).
      rewrite O. split; [reflexivity|].
      rewrite get_without_removed; [reflexivity|].
      unfold swept. change k with (fst (k, s)).
      apply in_map, filter_In. auto.
    + intros Hnot.
      assert (O : is_old cutoff s = false).
      { destruct (is_old cutoff s) eqn:O; [|reflexivity].
        apply is_old_iff in O. contradiction. }
      rewrite O. split; [reflexivity|]. rewrite get_without; [reflexivity|].
      unfold swept. intros Hin.
      apply in_map_iff in Hin as [[k' s'] [Hk [Hin Hp]%filter_In]].
      simpl in Hk, Hp; subst k'.
      rewrite (NoDup_keys_functional (active_sessions self) k s' s
                 Hn Hin G) in Hp.
      congruence.
Qed.

Lemma cleanup_old_sessions_removes_old_only_witness :
  exists n self',
    cleanup_old_sessions 24 (90000 * 1000000)
      {| active_sessions :=
           [(py "0af3-",
             {| session_id := py "0af3-"; user_pseudo_id := None;
                start_time := Some 5%Z; end_time := None;
                state := IN_PROGRESS; turns := TurnsInitial |})];
         session_history := [(py "0af3-", [])] |}
    = Return n self' /\ store_ok self' = true.
Proof.
  destruct (cleanup_old_sessions_removes_old_only
              {| active_sessions :=
                   [(py "0af3-",
                     {| session_id := py "0af3-"; user_pseudo_id := None;
                        start_time := Some 5%Z; end_time := None;
                        state := IN_PROGRESS; turns := TurnsInitial |})];
                 session_history := [(py "0af3-", [])] |}
              24 (90000 * 1000000) eq_refl)
    as [_ Hfits].
  destruct (Hfits eq_refl) as [n [self' [E [H _]]]].
  exists n, self'. auto.
Defined.

(** The float arithmetic at work.  A session that started exactly one hour
    before [now] is removed by a sweep of one hour when the rounded cutoff
    falls above its time stamp (2 microseconds past the epoch) and kept
    when it falls below (1 microsecond past); past 2^33 seconds two
    instants one microsecond apart have the same time stamp, so a sweep of
    age 0 keeps a session that started one microsecond earlier. *)
Example cleanup_old_sessions_float_cases :
  let store t :=
    {| active_sessions :=
         [(py "0af3-",
           {| session_id := py "0af3-"; user_pseudo_id := None;
              start_time := Some t; end_time := None;
              state := IN_PROGRESS; turns := TurnsInitial |})];
       session_history := [(py "0af3-", [])] |} in
  value_of (cleanup_old_sessions 1 (3600 * 1000000 + 2) (store 2%Z))
  = Some 1 /\
  value_of (cleanup_old_sessions 1 (3600 * 1000000 + 1) (store 1%Z))
  = Some 0 /\
  value_of (cleanup_old_sessions 0 (8589934592 * 1000000 + 2)
              (store (8589934592 * 1000000 + 1)%Z))
  = Some 0.
Proof. repeat split; vm_compute; reflexivity. Qed.

(** X7.  Sweeping again with the same maximal age at the same time does
    nothing more: when the first sweep returns, no session it left has a
    time stamp strictly below the cutoff, and the second returns 0 and
    leaves the store as the first one left it; when the first raises (its
    age does not fit a float), the store is unchanged and the second raises
    the same. *)
Theorem cleanup_old_sessions_twice (self : SessionManager)
  (age : Z) (now : datetime) :
  store_ok self = true ->
  (exists n self',
     cleanup_old_sessions age now self = Return n self' /\
     cleanup_old_sessions age now self' = Return 0 self' /\
     forall k s t,
       In (k, s) (active_sessions self') -> start_time s = Some t ->
       PyFloat.ltb (PyFloat.timestamp t)
         (PyFloat.sub (PyFloat.timestamp now) (PyFloat.of_int (age * 3600)))
       = false) \/
  (PyFloat.is_inf (PyFloat.of_int (age * 3600)) = true /\
   cleanup_old_sessions age now self = Raise OverflowError self).
Proof.
  intros Hok. pose proof Hok as [Hn _]%store_ok_iff.
  destruct (PyFloat.is_inf (PyFloat.of_int (age * 3600))) eqn:Hfin.
  - right. split; [reflexivity|].
    apply cleanup_old_sessions_overflow, Hfin.
  - left.
    pose proof (cleanup_old_sessions_spec age now self Hok Hfin) as E.
    cbv zeta in E.
    set (cutoff := PyFloat.sub (PyFloat.timestamp now)
                     (PyFloat.of_int (age * 3600))) in *.
    do 2 eexists. split; [exact E|]. split;
      [|cbn [active_sessions]; intros k s t [_ Hp]%filter_In Ht;
        simpl in Hp; apply negb_true_iff in Hp;
        unfold is_old in Hp; rewrite Ht in Hp; exact Hp].
    rewrite cleanup_old_sessions_spec;
      [|rewrite <- without_swept by exact Hn; apply store_ok_without, Hok
       |exact Hfin].
    cbv zeta. fold cutoff. cbn [active_sessions session_history].
    assert (Hs : swept cutoff (kept cutoff (active_sessions self)) = []).
    { unfold swept, kept. rewrite filter_all_false; [reflexivity|].
      intros kv [_ H]%filter_In. apply negb_true_iff in H. exact H. }
    assert (Hk : kept cutoff (kept cutoff (active_sessions self))
                 = kept cutoff (active_sessions self)).
    { unfold kept at 1. apply filter_all_true.
      intros kv [_ H]%filter_In. exact H. }
    rewrite Hs, Hk, without_keys_nil. reflexivity.
Qed.

Lemma cleanup_old_sessions_twice_witness :
  (exists n self',
     cleanup_old_sessions 0 6
       {| active_sessions :=
            [(py "0af3-",
              {| session_id := py "0af3-"; user_pseudo_id := None;
                 start_time := Some 5%Z; end_time := None;
                 state := IN_PROGRESS; turns := TurnsInitial |})];
          session_history := [(py "0af3-", [])] |}
     = Return n self' /\
     cleanup_old_sessions 0 6 self' = Return 0 self' /\
     forall k s t,
       In (k, s) (active_sessions self') -> start_time s = Some t ->
       PyFloat.ltb (PyFloat.timestamp t)
         (PyFloat.sub (PyFloat.timestamp 6) (PyFloat.of_int (0 * 3600)))
       = false) \/
  (PyFloat.is_inf (PyFloat.of_int (0 * 3600)) = true /\
   cleanup_old_sessions 0 6
     {| active_sessions :=
          [(py "0af3-",
            {| session_id := py "0af3-"; user_pseudo_id := None;
               start_time := Some 5%Z; end_time := None;
               state := IN_PROGRESS; turns := TurnsInitial |})];
        session_history := [(py "0af3-", [])] |}
   = Raise OverflowError
       {| active_sessions :=
            [(py "0af3-",
              {| session_id := py "0af3-"; user_pseudo_id := None;
                 start_time := Some 5%Z; end_time := None;
                 state := IN_PROGRESS; turns := TurnsInitial |})];
          session_history := [(py "0af3-", [])] |}).
Proof.
  apply (cleanup_old_sessions_twice
           {| active_sessions :=
                [(py "0af3-",
                  {| session_id := py "0af3-"; user_pseudo_id := None;
                     start_time := Some 5%Z; end_time := None;
                     state := IN_PROGRESS; turns := TurnsInitial |})];
              session_history := [(py "0af3-", [])] |}
           0 6 eq_refl).
Defined.

Lemma update_session_present (sid q qid a : str) (now : datetime)
  (self : SessionManager) (h : list Turn) :
  PyDict.contains (active_sessions self) sid = true ->
  PyDict.get (session_history self) sid = Some h ->
  update_session sid q qid a now self
  = Return tt
      {| active_sessions :=
           PyDict.adjust (set_turns (TurnsOfHistory sid))
             (active_sessions self) sid;
         session_history :=
           PyDict.set (session_history self) sid
             (h ++ [turn_of (q, qid, a, now)]) |}.
Proof.
  intros Hin G. unfold update_session, bind, get_self. rewrite Hin, G.
  reflexivity.
Qed.

(** X8.  Calls of [update_session] on a stored identifier, one after the
    other, leave its history as the old history followed by the recorded
    turns in the order of the calls; the histories of the other identifiers
    and the keys of the store are as before. *)
Theorem update_session_accumulates (sid : str)
  (l : list (str * str * str * datetime)) :
  forall (self : SessionManager) (h : list Turn),
    PyDict.contains (active_sessions self) sid = true ->
    PyDict.get (session_history self) sid = Some h ->
    exists self',
      update_all sid l self = Return tt self' /\
      get_session_history sid self' = Return (h ++ map turn_of l) self' /\
      (forall k, k <> sid ->
         value_of (get_session_history k self')
         = value_of (get_session_history k self)) /\
      PyDict.keys (active_sessions self')
      = PyDict.keys (active_sessions self).
Proof.
  induction l as [|[[[q qid] a] now] l IH]; intros self h Hin G.
  - exists self. split; [reflexivity|].
    unfold get_session_history, bind, get_self, ret.
    rewrite G, app_nil_r. auto.
  - pose proof (@update_session_present sid q qid a now self h Hin G) as E.
    set (self1 := {| active_sessions :=
                       PyDict.adjust (set_turns (TurnsOfHistory sid))
                         (active_sessions self) sid;
                     session_history :=
                       PyDict.set (session_history self) sid
                         (h ++ [turn_of (q, qid, a, now)]) |}) in E.
    assert (Hin1 : PyDict.contains (active_sessions self1) sid = true).
    { rewrite contains_mem in *. subst self1. cbn [active_sessions].
      rewrite keys_adjust. exact Hin. }
    assert (G1 : PyDict.get (session_history self1) sid
                 = Some (h ++ [turn_of (q, qid, a, now)]))
      by (subst self1; cbn [session_history]; apply get_set_same).
    destruct (IH self1 _ Hin1 G1) as [self' [E' [Hh [Ho Hk]]]].
    exists self'. split; [|split; [|split]].
    + unfold update_all. cbn [for_each].
      rewrite (@bind_Return _ _ _ _ _ _ _ E). exact E'.
    + rewrite Hh, <- app_assoc. reflexivity.
    + intros k Hk'. rewrite (Ho k Hk').
      unfold get_session_history, bind, get_self, ret. subst self1.
      cbn [session_history value_of]. rewrite get_set_other by exact Hk'.
      reflexivity.
    + rewrite Hk. subst self1. cbn [active_sessions]. apply keys_adjust.
Qed.

Lemma update_session_accumulates_witness :
  exists self',
    update_all (py "0af3-")
      [(py "first", py "1", py "answer_1", 7%Z);
       (py "second", py "2", py "answer_2", 8%Z)]
      {| active_sessions :=
           [(py "0af3-",
             {| session_id := py "0af3-"; user_pseudo_id := None;
                start_time := Some 5%Z; end_time := None;
                state := IN_PROGRESS; turns := TurnsInitial |})];
         session_history := [(py "0af3-", [])] |}
    = Return tt self' /\
    get_session_history (py "0af3-") self'
    = Return (map turn_of
                [(py "first", py "1", py "answer_1", 7%Z);
                 (py "second", py "2", py "answer_2", 8%Z)]) self'.
Proof.
  destruct (@update_session_accumulates (py "0af3-")
              [(py "first", py "1", py "answer_1", 7%Z);
               (py "second", py "2", py "answer_2", 8%Z)]
              {| active_sessions :=
                   [(py "0af3-",
                     {| session_id := py "0af3-"; user_pseudo_id := None;
                        start_time := Some 5%Z; end_time := None;
                        state := IN_PROGRESS; turns := TurnsInitial |})];
                 session_history := [(py "0af3-", [])] |}
              [] eq_refl eq_refl)
    as [self' [E [H _]]].
  exists self'. auto.
Defined.

(* ===================================================================== *)
(** * Further properties of the classifier *)
(* ===================================================================== *)

Lemma group_of_None (k : str) (results : list SearchResult) :
  group_of k results = None -> filter (in_group k) results = [].
Proof.
  unfold group_of.
  destruct (filter (in_group k) results) as [|r l] eqn:F; [reflexivity|].
  assert (Hr : in_group k r = true).
  { assert (Hin : In r (filter (in_group k) results))
      by (rewrite F; left; reflexivity).
    apply filter_In in Hin. tauto. }
  unfold in_group in Hr.
  destruct (sow_pattern_search (title r)); discriminate.
Qed.

Lemma in_group_key (r : SearchResult) (g k : str) :
  sow_pattern_search (title r) = Some g ->
  in_group k r = str_eqb (sow_key g) k.
Proof. unfold in_group. intros ->. reflexivity. Qed.

(** One round of the loop, in terms of the results seen so far. *)
Lemma classify_result_groups (seen : list SearchResult)
  (d : PyDict.t SowInfo) (other : list Document) (r : SearchResult) :
  (forall k, PyDict.get d k = group_of k seen) ->
  other = map condensed (filter unmatched seen) ->
  (forall k, PyDict.get (fst (classify_result (d, other) r)) k
             = group_of k (seen ++ [r])) /\
  snd (classify_result (d, other) r)
  = map condensed (filter unmatched (seen ++ [r])).
Proof.
  intros Hd Ho. unfold classify_result.
  destruct (sow_pattern_search (title r)) as [g|] eqn:S.
  - fold (sow_key g). cbv zeta. cbn [fst snd]. split.
    + intros k. unfold group_of. rewrite filter_app. cbn [filter].
      rewrite (in_group_key r k S).
      destruct (str_eqb (sow_key g) k) eqn:E.
      * apply str_eqb_eq in E; subst k. rewrite get_adjust_same.
        unfold PyDict.contains. rewrite (Hd (sow_key g)).
        destruct (group_of (sow_key g) seen) as [info|] eqn:Gs.
        -- rewrite (Hd (sow_key g)), Gs. unfold group_of in Gs.
           destruct (filter (in_group (sow_key g)) seen) as [|r0 l0];
             [discriminate|].
           cbn [app]. destruct (sow_pattern_search (title r0));
             [|discriminate].
           injection Gs as <-. simpl. unfold append_document. simpl.
           rewrite map_app. reflexivity.
        -- rewrite get_set_same. rewrite (group_of_None _ _ Gs).
           simpl. rewrite S. reflexivity.
      * apply str_eqb_neq in E. rewrite app_nil_r.
        rewrite get_adjust_other by congruence.
        fold (group_of k seen). rewrite <- Hd.
        destruct (PyDict.contains d (sow_key g)); [reflexivity|].
        apply get_set_other. congruence.
    + rewrite filter_app. cbn [filter]. unfold unmatched at 2. rewrite S.
      rewrite app_nil_r. exact Ho.
  - cbn [fst snd]. split.
    + intros k. unfold group_of. rewrite filter_app. cbn [filter].
      unfold in_group at 2. rewrite S, app_nil_r. apply Hd.
    + rewrite filter_app, map_app. cbn [filter]. unfold unmatched at 2.
      rewrite S. simpl. rewrite Ho. reflexivity.
Qed.

Lemma classify_fold_groups (results : list SearchResult) :
  forall (seen : list SearchResult) (d : PyDict.t SowInfo)
         (other : list Document),
    (forall k, PyDict.get d k = group_of k seen) ->
    other = map condensed (filter unmatched seen) ->
    (forall k,
       PyDict.get (fst (fold_left classify_result results (d, other))) k
       = group_of k (seen ++ results)) /\
    snd (fold_left classify_result results (d, other))
    = map condensed (filter unmatched (seen ++ results)).
Proof.
  induction results as [|r results IH]; intros seen d other Hd Ho.
  - simpl. rewrite app_nil_r. auto.
  - cbn [fold_left].
    destruct (@classify_result_groups seen d other r Hd Ho) as [Hd1 Ho1].
    destruct (classify_result (d, other) r) as [d1 other1].
    replace (seen ++ r :: results) with ((seen ++ [r]) ++ results)
      by (rewrite <- app_assoc; reflexivity).
    apply IH; assumption.
Qed.

(** X9.  The group stored under a key holds the condensed records of
    exactly the results whose title gives that key, in the order of the
    input; its primary title is the title of the first of them and its
    number is the identifier captured there.  A key is absent exactly when
    no result gives it.  The other documents are the condensed records of
    the results without a match, in the order of the input. *)
Theorem extract_sows_groups_in_input_order (results : list SearchResult) :
  let a := extract_sows_from_results results in
  (forall k info,
     PyDict.get (sows a) k = Some info ->
     exists r l,
       filter (in_group k) results = r :: l /\
       documents info = map condensed (r :: l) /\
       primary_title info = title r /\
       sow_pattern_search (title r) = Some (sow_number info) /\
       sow_key (sow_number info) = k) /\
  (forall k,
     PyDict.get (sows a) k = None <-> filter (in_group k) results = []) /\
  other_documents a = map condensed (filter unmatched results).
Proof.
  destruct (extract_sows_from_results_spec results)
    as [d [other [Hf [Hn [-> [Hs _]]]]]].
  cbv zeta. cbn [sows other_documents].
  destruct (@classify_fold_groups results [] (PyDict.empty SowInfo) []
              (fun k => eq_refl) eq_refl) as [Hd Ho].
  rewrite Hf in Hd, Ho. cbn [fst snd app] in Hd, Ho.
  assert (Hg : forall k, PyDict.get (PyDict.sorted d) k = group_of k results).
  { intros k. rewrite <- Hd. apply get_perm; [symmetry; exact Hs | exact Hn]. }
  split; [|split; [|exact Ho]].
  - intros k info G. rewrite Hg in G. unfold group_of in G.
    destruct (filter (in_group k) results) as [|r l] eqn:F; [discriminate|].
    assert (Hr : in_group k r = true).
    { assert (Hin : In r (filter (in_group k) results))
        by (rewrite F; left; reflexivity).
      apply filter_In in Hin. tauto. }
    unfold in_group in Hr.
    destruct (sow_pattern_search (title r)) as [g|] eqn:S; [|discriminate].
    injection G as <-. exists r, l. simpl.
    apply str_eqb_eq in Hr. auto.
  - intros k. rewrite Hg. split; [apply group_of_None|].
    unfold group_of. intros ->. reflexivity.
Qed.

(** *** The order of the keys *)

Lemma str_leb_total (a b : str) : str_leb a b = false -> str_leb b a = true.
Proof.
  revert b; induction a as [|x a IH]; intros [|y b]; simpl;
    try congruence.
  destruct (N.ltb_spec x y) as [Hlt|Hge]; [discriminate|].
  destruct (N.eqb_spec x y) as [->|Hxy].
  - intros Hab. rewrite N.ltb_irrefl, N.eqb_refl. apply IH, Hab.
  - intros _. destruct (N.ltb_spec y x) as [Hlt|Hge']; [reflexivity | lia].
Qed.

Lemma str_leb_trans (a b c : str) :
  str_leb a b = true -> str_leb b c = true -> str_leb a c = true.
Proof.
  revert b c; induction a as [|x a IH]; intros [|y b] [|z c]; simpl;
    try congruence.
  destruct (N.ltb_spec x y), (N.ltb_spec y z), (N.ltb_spec x z);
    try reflexivity; try lia;
    destruct (N.eqb_spec x y), (N.eqb_spec y z), (N.eqb_spec x z);
    try congruence; try lia.
  apply IH.
Qed.

Section SortedItems.
Variable V : Type.

Lemma insert_sorted_sorted (kv : str * V) (l : list (str * V)) :
  StronglySorted (fun x y => str_leb (fst x) (fst y) = true) l ->
  StronglySorted (fun x y => str_leb (fst x) (fst y) = true)
    (PyDict.insert_sorted kv l).
Proof.
  induction l as [|kv' l IH]; simpl; intros Hl.
  - constructor; constructor.
  - inversion Hl as [|? ? Hl' Hall]; subst.
    destruct (str_leb (fst kv) (fst kv')) eqn:E.
    + constructor; [exact Hl|]. constructor; [exact E|].
      eapply Forall_impl; [|exact Hall].
      intros x Hx. simpl in Hx. eapply str_leb_trans; eassumption.
    + constructor; [apply IH, Hl'|].
      apply Forall_forall. intros x Hx.
      apply (Permutation_in _ (insert_sorted_perm kv l)) in Hx.
      destruct Hx as [<-|Hx]; [apply str_leb_total, E|].
      rewrite Forall_forall in Hall. apply Hall, Hx.
Qed.

Lemma sorted_sorted (l : list (str * V)) :
  StronglySorted (fun x y => str_leb (fst x) (fst y) = true)
    (PyDict.sorted l).
Proof.
  induction l as [|kv l IH]; simpl; [constructor|].
  apply insert_sorted_sorted, IH.
Qed.

Lemma keys_strictly_sorted (l : list (str * V)) :
  StronglySorted (fun x y => str_leb (fst x) (fst y) = true) l ->
  NoDup (PyDict.keys l) ->
  StronglySorted (fun a b => str_leb a b = true /\ a <> b) (PyDict.keys l).
Proof.
  induction 1 as [|kv l Hl IH Hall]; simpl; intros Hn; [constructor|].
  inversion Hn as [|? ? Hk Hn']; subst.
  constructor; [apply IH, Hn'|].
  apply Forall_forall. intros k Hin. split.
  - unfold PyDict.keys in Hin. apply in_map_iff in Hin as [x [<- Hx]].
    rewrite Forall_forall in Hall. apply Hall, Hx.
  - intros <-. contradiction.
Qed.
End SortedItems.

(** X10.  The keys of the returned groups are in strictly ascending order
    of their code points (shorter before longer on a common prefix). *)
Theorem extract_sows_keys_ascend (results : list SearchResult) :
  StronglySorted (fun a b => str_leb a b = true /\ a <> b)
    (PyDict.keys (sows (extract_sows_from_results results))).
Proof.
  destruct (extract_sows_from_results_spec results)
    as [d [other [_ [Hn [-> [Hs _]]]]]].
  cbn [sows]. apply keys_strictly_sorted; [apply sorted_sorted|].
  eapply Permutation_NoDup; [|exact Hn].
  apply Permutation_map. symmetry. exact Hs.
Qed.

Lemma sows_get_group_of (results : list SearchResult) (k : str) :
  PyDict.get (sows (extract_sows_from_results results)) k
  = group_of k results.
Proof.
  destruct (extract_sows_from_results_spec results)
    as [d [other [Hf [Hn [-> [Hs _]]]]]].
  cbn [sows].
  destruct (@classify_fold_groups results [] (PyDict.empty SowInfo) []
              (fun k => eq_refl) eq_refl) as [Hd _].
  rewrite Hf in Hd. cbn [fst app] in Hd. rewrite <- Hd.
  apply get_perm; [symmetry; exact Hs | exact Hn].
Qed.

Lemma grouped_count_at_least (d : PyDict.t SowInfo) :
  (forall kv, In kv d -> documents (snd kv) <> []) ->
  length d <= grouped_count d.
Proof.
  unfold grouped_count, PyDict.values.
  induction d as [|[k info] d IH]; simpl; intros H; [lia|].
  assert (Hd : documents info <> []) by (apply (H (k, info)); auto).
  assert (IH' : length d
                <= fold_right (fun g n => length (documents g) + n) 0
                     (map snd d)) by (apply IH; auto).
  destruct (documents info); [congruence | simpl; lia].
Qed.

(** X11.  [total_sows] is the number of groups returned; every group holds
    at least one document, so there are at most as many groups as matched
    results, and groups and other documents together are at most the
    total. *)
Theorem extract_sows_counts_groups (results : list SearchResult) :
  let a := extract_sows_from_results results in
  total_sows a = length (sows a) /\
  (forall k info, In (k, info) (sows a) -> documents info <> []) /\
  total_sows a <= grouped_count (sows a) /\
  total_sows a + length (other_documents a) <= total_documents a.
Proof.
  intros a.
  assert (Hne : forall k info, In (k, info) (sows a) ->
                               documents info <> []).
  { intros k info Hin.
    destruct (extract_sows_documents_perm results) as [_ Hn].
    fold a in Hn. apply (In_get (sows a) k info Hn) in Hin.
    subst a. rewrite sows_get_group_of in Hin. unfold group_of in Hin.
    destruct (filter (in_group k) results) as [|r l]; [discriminate|].
    destruct (sow_pattern_search (title r)); [|discriminate].
    injection Hin as <-. discriminate. }
  assert (Hlen : total_sows a = length (sows a)).
  { subst a.
    destruct (extract_sows_from_results_spec results)
      as [d [other [_ [_ [-> [Hs _]]]]]].
    cbn [total_sows sows]. symmetry. apply Permutation_length, Hs. }
  assert (Hle : total_sows a <= grouped_count (sows a)).
  { rewrite Hlen. apply grouped_count_at_least.
    intros [k info] Hin. apply (Hne k info Hin). }
  split; [exact Hlen|]. split; [exact Hne|]. split; [exact Hle|].
  destruct (extract_sows_documents_perm results) as [Hp _]. fold a in Hp.
  assert (Ht : total_documents a = length results).
  { subst a. unfold extract_sows_from_results.
    destruct (fold_left classify_result results _). reflexivity. }
  apply Permutation_length in Hp.
  rewrite length_app, length_map, <- grouped_count_length in Hp. lia.
Qed.

(** X12.  A preview never has more than 203 characters.  It is longer than
    the content exactly for contents of 201 or 202 characters, and making
    the preview of a preview changes nothing. *)
Theorem content_preview_bounded_idempotent (c : str) :
  length (content_preview c) <= 203 /\
  (length c < length (content_preview c) <->
   length c = 201 \/ length c = 202) /\
  content_preview (content_preview c) = content_preview c.
Proof.
  destruct (Nat.le_gt_cases (length c) 200) as [Hs|Hl].
  - rewrite !(content_preview_short c Hs).
    split; [lia|]. split; [lia | reflexivity].
  - destruct (content_preview_long c Hl) as [H1 [H2 H3]].
    split; [lia|]. split; [lia|].
    assert (Hl' : 200 < length (content_preview c)) by lia.
    destruct (content_preview_long (content_preview c) Hl') as [H4 _].
    rewrite H4, H3. symmetry. exact H1.
Qed.

(** X13.  [search] reports the leftmost place of the title where the
    pattern matches: the title splits into a part where no place matches
    and a rest at whose head the pattern matches with the reported
    identifier; it reports nothing exactly when the pattern matches at no
    place of the title. *)
Theorem sow_pattern_search_leftmost (t : str) :
  match sow_pattern_search t with
  | Some g =>
      exists a b,
        t = a ++ b /\ sow_pattern_match b = Some g /\
        forall a1 a2, a = a1 ++ a2 -> a2 <> [] ->
                      sow_pattern_match (a2 ++ b) = None
  | None => forall a b, t = a ++ b -> sow_pattern_match b = None
  end.
Proof.
  induction t as [|c t IH]; cbn [sow_pattern_search].
  - destruct (sow_pattern_match []) as [g|] eqn:E.
    + exists [], []. split; [reflexivity|]. split; [exact E|].
      intros [|x a1] a2 H; simpl in H; [congruence | discriminate].
    + intros a b H. symmetry in H. apply app_eq_nil in H as [_ ->].
      exact E.
  - destruct (sow_pattern_match (c :: t)) as [g|] eqn:E.
    + exists [], (c :: t). split; [reflexivity|]. split; [exact E|].
      intros [|x a1] a2 H; simpl in H; [congruence | discriminate].
    + destruct (sow_pattern_search t) as [g|].
      * destruct IH as [a [b [-> [Hm Hleft]]]].
        exists (c :: a), b. split; [reflexivity|]. split; [exact Hm|].
        intros [|x a1] a2 H Hne; simpl in H.
        -- subst a2. exact E.
        -- injection H as _ H. apply (Hleft a1 a2 H Hne).
      * intros [|x a] b H; simpl in H.
        -- subst b. exact E.
        -- injection H as _ H. apply (IH a b H).
Qed.

(* ===================================================================== *)
(** * Properties of the callers *)
(* ===================================================================== *)

Import Conversation.

Lemma search_with_answer_query_id
  (search_reply : list SearchResult + str)
  (answer_reply : AnswerParts + remote_failure)
  (sid : option str) (resp : AnswerResponse) :
  search_with_answer search_reply answer_reply sid = inl resp ->
  resp_query_id resp = None /\ resp_session_id resp = sid.
Proof.
  unfold search_with_answer, search, get_answer.
  destruct search_reply as [rs|msg]; [|discriminate].
  destruct answer_reply as [parts|[m|m]]; try discriminate.
  intros [= <-]. auto.
Qed.

(** The session handling never raises, and leaves every history as it was
    or, for a session it creates, empty. *)
Lemma choose_session_returns (u : str) (now : datetime)
  (session_id user : option str) (start : bool) (self : SessionManager) :
  exists sid self1,
    choose_session u now session_id user start self = Return sid self1 /\
    (forall k,
       value_of (get_session_history k self1)
       = value_of (get_session_history k self) \/
       value_of (get_session_history k self1) = Some []) /\
    (start = false -> session_id <> None -> self1 = self).
Proof.
  assert (Hcreate :
            exists sid self1,
              create_session u now user self = Return sid self1 /\
              forall k,
                value_of (get_session_history k self1)
                = value_of (get_session_history k self) \/
                value_of (get_session_history k self1) = Some []).
  { do 2 eexists.
    split; [cbv [create_session bind get_self put_self ret]; reflexivity|].
    intros k. unfold get_session_history, bind, get_self, ret.
    cbn [session_history value_of].
    destruct (str_eqb k (u ++ [dash])) eqn:E.
    - apply str_eqb_eq in E; subst k. rewrite get_set_same. auto.
    - apply str_eqb_neq in E. rewrite get_set_other by exact E. auto. }
  unfold choose_session.
  destruct start.
  - destruct Hcreate as [sid [self1 [E H]]]. exists sid, self1.
    split; [exact E|]. split; [exact H | discriminate].
  - destruct session_id as [s|].
    + assert (Hs : exists sid,
                 (if truthy s
                  then new <- is_new_session s ;;
                       if new then get_clean_session_id s else ret s
                  else ret s) self = Return sid self).
      { unfold is_new_session, get_clean_session_id, bind, ret.
        destruct (truthy s); [destruct (endswith_dash s)|]; eexists;
          reflexivity. }
      destruct Hs as [sid E]. exists sid, self. split; [exact E|]. auto.
    + destruct Hcreate as [sid [self1 [E H]]]. exists sid, self1.
      split; [exact E|]. split; [exact H | congruence].
Qed.

(** X14.  [conversational_search] never records a turn: the query
    identifier of the response is always [None], so [update_session] is not
    reached.  Whether it returns or raises, it leaves the store as the
    session handling at its head left it: every history is as before, and
    the history of a session it created is empty.  A response carries the
    identifier that the session handling chose. *)
Theorem conversational_search_records_no_turn
  (u : str) (now now' : datetime)
  (search_reply : list SearchResult + str)
  (answer_reply : AnswerParts + remote_failure)
  (query : str) (session_id user : option str) (start : bool)
  (self : SessionManager) :
  let r := conversational_search u now now' search_reply answer_reply
             query session_id user start self in
  exists sid,
    choose_session u now session_id user start self
    = Return sid (store_of r) /\
    (forall resp self',
       r = Ok resp self' ->
       resp_query_id resp = None /\ resp_session_id resp = Some sid) /\
    (forall k,
       value_of (get_session_history k (store_of r))
       = value_of (get_session_history k self) \/
       value_of (get_session_history k (store_of r)) = Some []).
Proof.
  destruct (choose_session_returns u now session_id user start self)
    as [sid [self1 [Ec [Hh _]]]].
  cbv zeta. unfold conversational_search. rewrite Ec.
  destruct (search_with_answer search_reply answer_reply (Some sid))
    as [resp|e] eqn:Es.
  - destruct (search_with_answer_query_id _ _ _ Es) as [Hq _].
    rewrite Hq. unfold ret. cbn [store_of]. exists sid.
    split; [reflexivity|]. split; [|exact Hh].
    intros resp' self' [= <- _]. auto.
  - cbn [store_of]. exists sid. split; [reflexivity|].
    split; [discriminate | exact Hh].
Qed.


Lemma confirmed_not_stored (self : SessionManager) (sid : str) :
  sessions_ok self = true ->
  PyDict.get (active_sessions self) (rstrip_dash sid) = None.
Proof.
  intros [_ [Hs _]]%sessions_ok_iff. apply get_None. intros Hin.
  unfold PyDict.keys in Hin.
  apply in_map_iff in Hin as [[k s] [Hk Hks]]. simpl in Hk; subst k.
  destruct (session_ok_fields _ s (Hs _ Hks)) as [_ [H _]].
  rewrite endswith_rstrip_dash in H. discriminate.
Qed.

(** X16.  A follow-up [conversational_search] with a provisional
    identifier, on a store built by any sequence of calls, leaves the store
    as it is and answers under the confirmed identifier, which is the key
    of no stored session: [get_session] of the returned identifier finds
    nothing. *)
Theorem conversational_search_follow_up_leaves_store
  (calls : list call) (u : str) (now now' : datetime)
  (search_reply : list SearchResult + str)
  (answer_reply : AnswerParts + remote_failure)
  (query sid : str) (user : option str) :
  endswith_dash sid = true ->
  exists self,
    state_after calls = self /\
    store_of (conversational_search u now now' search_reply answer_reply
                query (Some sid) user false self) = self /\
    (forall resp self',
       conversational_search u now now' search_reply answer_reply
         query (Some sid) user false self = Ok resp self' ->
       self' = self /\
       resp_session_id resp = Some (rstrip_dash sid) /\
       get_session (rstrip_dash sid) self' = Return None self').
Proof.
  intros Hnew.
  destruct (state_after_sessions_ok calls) as [self [E Hok]].
  exists self. split; [exact E|].
  assert (Ht : truthy sid = true) by (destruct sid; [discriminate|reflexivity]).
  assert (Ec : choose_session u now (Some sid) user false self
               = Return (rstrip_dash sid) self).
  { unfold choose_session, is_new_session, get_clean_session_id, bind, ret.
    rewrite Ht, Hnew. reflexivity. }
  unfold conversational_search. cbv zeta. rewrite Ec.
  destruct (search_with_answer search_reply answer_reply
              (Some (rstrip_dash sid))) as [resp|e] eqn:Es.
  - destruct (search_with_answer_query_id _ _ _ Es) as [Hq _].
    rewrite Hq. unfold ret. cbn [store_of]. split; [reflexivity|].
    intros resp' self' [= <- <-]. split; [reflexivity|].
    split; [reflexivity|].
    unfold get_session, bind, get_self, ret.
    rewrite (confirmed_not_stored self sid Hok). reflexivity.
  - cbn [store_of]. split; [reflexivity | discriminate].
Qed.

Lemma conversational_search_follow_up_leaves_store_witness :
  exists self,
    state_after [Create (py "0af3") 5 None] = self /\
    store_of (conversational_search (py "77aa") 8 9 (inl [])
                (inl {| answer_text := py "text";
                        related_questions := [];
                        search_results := [] |})
                (py "and then?") (Some (py "0af3-")) None false self)
    = self.
Proof.
  destruct (conversational_search_follow_up_leaves_store
              [Create (py "0af3") 5 None] (py "77aa") 8 9 (inl [])
              (inl {| answer_text := py "text";
                      related_questions := [];
                      search_results := [] |})
              (py "and then?") (py "0af3-") None eq_refl)
    as [self [E [H _]]].
  exists self. auto.
Defined.

(** X17.  [search_and_analyze_sows] returns an analysis of exactly the raw
    results it returns beside it, whose groups and other documents together
    count those results; it raises exactly when the search does, with the
    failure of the search wrapped. *)
Theorem search_and_analyze_sows_accounts_for_results
  (reply : list SearchResult + str) (query : str) :
  match search_and_analyze_sows reply query with
  | inl r =>
      reply = inl (sow_raw_results r) /\
      sow_query r = query /\
      sow_analysis r = extract_sows_from_results (sow_raw_results r) /\
      grouped_count (sows (sow_analysis r))
      + length (other_documents (sow_analysis r))
      = length (sow_raw_results r)
  | inr e =>
      exists msg,
        reply = inr msg /\
        e = Exception (py "SOW analysis failed: ")
              (Exception (py "Search failed: ") (Remote msg))
  end.
Proof.
  unfold search_and_analyze_sows, search.
  destruct reply as [results|msg]; cbn [sow_raw_results sow_query sow_analysis].
  - repeat (split; [reflexivity|]).
    destruct (extract_sows_documents_perm results) as [Hp _].
    apply Permutation_length in Hp.
    rewrite length_app, length_map, <- grouped_count_length in Hp. exact Hp.
  - exists msg. auto.
Qed.
